(** * COVID-19 data loader and chart builder: a shallow embedding

    The development follows the two Python modules of the repository:

    - [covid19/data.py]: [prepare_fiocruz_data], [load_cases],
      [load_population];
    - [simulator/pages/utils/viz.py]: [unstack_iterations_ndarray],
      [compute_mean_and_boundaries], [prep_tidy_data_to_plot],
      [_treat_negative_values_to_plot], [plot_r0].

    The pandas operations the code chains are written out as list programs
    (module [Pandas]); a frame is what pandas keeps: an index, column labels
    and the columns.  Numbers of dtype float64 are Rocq's primitive binary64
    floats; integer counts are [Z]; a missing value (NaN in an integer-valued
    column, None in an object column) is [None].  Dates are day numbers. *)

From Stdlib Require Import ZArith String Ascii Floats Uint63.
From stdpp Require Import base option list sorting gmap strings pretty.

Set Warnings "-clear-no-such-hyp".

Local Open Scope string_scope.
Local Open Scope list_scope.
Local Open Scope Z_scope.

(** ** Python values, exceptions and the small monads of the model *)

Module Py.

Inductive exn :=
| AssertionError
| ValueError (msg : string)
| KeyError (key : string)
| TypeError
| MergeError
| DataError
| OverflowError
| OutOfBoundsDatetime.

Inductive result (A : Type) :=
| Ok (a : A)
| Raise (e : exn).
Arguments Ok {A} a.
Arguments Raise {A} e.

#[export] Instance result_ret : MRet result := @Ok.
#[export] Instance result_bind : MBind result :=
  λ A B f m, match m with Ok a => f a | Raise e => Raise e end.

(** [x in [a, b, ...]] on strings. *)
Definition py_in (x : string) (l : list string) : bool :=
  existsb (String.eqb x) l.

(** [l[start:]]: a negative [start] counts from the end, and both ends are
    clipped to the list. *)
Definition slice_from {A} (start : Z) (l : list A) : list A :=
  let n := Z.of_nat (length l) in
  let s := if start <? 0 then Z.max 0 (n + start) else Z.min start n in
  drop (Z.to_nat s) l.

(** A string holds the UTF-8 bytes of a Python [str]: a character is a
    byte that is not a continuation byte ([10xxxxxx]), followed by its
    continuation bytes. *)
Definition is_continuation (c : ascii) : bool :=
  match c with
  | Ascii _ _ _ _ _ _ b6 b7 => b7 && negb b6
  end.

Fixpoint skip_continuation (s : string) : string :=
  match s with
  | EmptyString => s
  | String c s' => if is_continuation c then skip_continuation s' else s
  end.

(** [s[n:]] on a string: the text after its first [n] characters. *)
Fixpoint str_from (n : nat) (s : string) : string :=
  match n, s with
  | O, _ => s
  | S _, EmptyString => EmptyString
  | S n', String _ s' => str_from n' (skip_continuation s')
  end.

(** [s.rsplit(sep, 1)] for a one-character separator: the text before and
    after the last [sep], or [None] when [s] has no [sep] (Python then
    returns the one-element list [[s]]). *)
Fixpoint rsplit1 (sep : ascii) (s : string) : option (string * string) :=
  match s with
  | EmptyString => None
  | String c s' =>
      match rsplit1 sep s' with
      | Some (a, b) => Some (String c a, b)
      | None => if Ascii.eqb c sep then Some (EmptyString, s') else None
      end
  end.

End Py.
Export Py.

(** ** Ordered labels

    pandas sorts group keys and index labels.  [cmp] is the order the model
    sorts by: integers by value, strings by character code. *)

Class Cmp (K : Type) := cmp : K → K → comparison.
#[export] Hint Mode Cmp ! : typeclass_instances.

#[export] Instance Z_cmp : Cmp Z := Z.compare.
#[export] Instance string_cmp : Cmp string := String.compare.
#[export] Instance pair_cmp {A B} `{Cmp A, Cmp B} : Cmp (A * B) :=
  λ p q, match cmp p.1 q.1 with
         | Eq => cmp p.2 q.2
         | c => c
         end.

Definition cmp_eqb {K} `{Cmp K} (x y : K) : bool :=
  match cmp x y with Eq => true | _ => false end.

(** A list of labels in strictly ascending order. *)
Definition ascending {K} `{Cmp K} (l : list K) : Prop :=
  StronglySorted (λ x y, cmp x y = Lt) l.

Module Pandas.

(** Insertion of a label into an ascending list without repeats. *)
Fixpoint insert_uniq {K} `{Cmp K} (x : K) (l : list K) : list K :=
  match l with
  | [] => [x]
  | y :: l' =>
      match cmp x y with
      | Lt => x :: l
      | Eq => l
      | Gt => y :: insert_uniq x l'
      end
  end.

(** The distinct labels of [l] in ascending order: the keys of a
    [groupby] (sort=True), the levels of an [unstack]. *)
Definition sort_uniq {K} `{Cmp K} (l : list K) : list K :=
  foldr insert_uniq [] l.

(** Position of a label in an index ([Index.get_loc]). *)
Fixpoint get_loc {K} `{Cmp K} (x : K) (l : list K) : option nat :=
  match l with
  | [] => None
  | y :: l' => if cmp_eqb x y then Some O else S <$> get_loc x l'
  end.

(** The value at a label of a labelled list ([Series.get]). *)
Fixpoint lookup_label {K V} `{Cmp K} (k : K) (l : list (K * V)) : option V :=
  match l with
  | [] => None
  | kv :: l' => if cmp_eqb k kv.1 then Some kv.2 else lookup_label k l'
  end.

(** [Series.sum()] of an integer-valued column, missing values skipped
    (skipna=True, min_count=0). *)
Definition sum_skipna (l : list (option Z)) : Z :=
  foldr (λ v acc, default 0 v + acc) 0 l.

(** A frame with a date index and two-level column labels, as
    [unstack] leaves it; [V] is the type of a cell. *)
Record Wide (V : Type) := mkWide {
  w_index : list Z;
  w_columns : list (string * string);
  w_data : list (list V)   (* one row per index label *)
}.
Arguments mkWide {V} _ _ _.
Arguments w_index {V} _.
Arguments w_columns {V} _.
Arguments w_data {V} _.

(** [t[c][d]]: the cell of column [c] at index label [d]. *)
Definition cell_at {V} (t : Wide V) (d : Z) (c : string * string) : option V :=
  i ← get_loc d (w_index t);
  j ← get_loc c (w_columns t);
  r ← w_data t !! i;
  r !! j.

(** Stable insertion of a labelled row by its label. *)
Fixpoint insert_row {K V} `{Cmp K} (x : K * V) (l : list (K * V)) : list (K * V) :=
  match l with
  | [] => [x]
  | y :: l' =>
      match cmp x.1 y.1 with
      | Gt => y :: insert_row x l'
      | _ => x :: l
      end
  end.

(** [sort_index()] of labelled rows: ascending order of the labels, rows
    with equal labels in their former order. *)
Definition sort_rows {K V} `{Cmp K} (l : list (K * V)) : list (K * V) :=
  foldr insert_row [] l.

(** [df.sort_index()]. *)
Definition sort_index {V} (t : Wide V) : Wide V :=
  let rows := sort_rows (zip (w_index t) (w_data t)) in
  mkWide rows.*1 (w_columns t) rows.*2.

(** [df.swaplevel(axis=1)]: the two levels of each column label change
    places; the columns keep their positions. *)
Definition swaplevel {V} (t : Wide V) : Wide V :=
  mkWide (w_index t) ((λ c, (c.2, c.1)) <$> w_columns t) (w_data t).

(** [df.fillna(0)]. *)
Definition fillna (v : Z) (t : Wide (option Z)) : Wide (option Z) :=
  mkWide (w_index t) (w_columns t) ((λ r : list (option Z), (λ x, Some (default v x)) <$> r) <$> w_data t).

(** [df.astype(int)]: pandas refuses to cast a missing value to an
    integer. *)
Definition astype_int (t : Wide (option Z)) : result (Wide Z) :=
  match mapM (mapM id) (w_data t) with
  | Some d => Ok (mkWide (w_index t) (w_columns t) d)
  | None => Raise (ValueError "Cannot convert non-finite values (NA or inf) to integer")
  end.

End Pandas.
Export Pandas.

(** ** covid19/data.py *)

Module data.

Definition COVID_19_BY_CITY_URL : string :=
  "https://raw.githubusercontent.com/wcota/covid19br/master/cases-brazil-cities-time.csv".
Definition COVID_SAUDE_URL : string :=
  "https://raw.githubusercontent.com/3778/COVID-19/master/data/latest_cases_ms.csv".
Definition FIOCRUZ_URL : string :=
  "https://bigdata-covid19.icict.fiocruz.br/sd/dados_casos.csv".

(** One row of the frame [df] that [load_cases] normalises every source
    to.  A column the source does not have, or a missing value in it, is
    [None]. *)
Record Row := mkRow {
  date : Z;
  name : option string;
  state : option string;
  city : option string;
  newCases : option Z;
  totalCases : option Z
}.

(** The rows of the three remote files, with the columns the code reads. *)
Record MsRow := mkMsRow {
  ms_date : Z;
  estado : option string;
  casosNovos : option Z;
  casosAcumulados : option Z
}.

Record FiocruzRow := mkFiocruzRow {
  fz_date : Z;
  fz_name : option string;
  new_cases : option Z
}.

(** What the three URLs serve when they are fetched. *)
Record World := mkWorld {
  ms_csv : list MsRow;
  wcota_csv : list Row;
  fiocruz_csv : list FiocruzRow
}.

(** A computation that may fetch URLs and may raise: it extends the log of
    the URLs fetched so far. *)
Definition IO (A : Type) : Type := list string → result A * list string.

#[export] Instance IO_ret : MRet IO := λ A a log, (Ok a, log).
#[export] Instance IO_bind : MBind IO :=
  λ A B f m log,
    match m log with
    | (Ok a, log') => f a log'
    | (Raise e, log') => (Raise e, log')
    end.

Definition py_assert (b : bool) : IO () :=
  λ log, (if b then Ok () else Raise AssertionError, log).

Definition read_csv {A} (url : string) (content : list A) : IO (list A) :=
  λ log, (Ok content, log ++ [url]).

Definition lift {A} (r : result A) : IO A := λ log, (r, log).

(** [df[by]] for the two columns [load_cases] groups a frame by. *)
Definition get_by (by_ : string) (r : Row) : option string :=
  if String.eqb by_ "state" then state r
  else if String.eqb by_ "city" then city r
  else None.

Section prepare.

(** [covid19.utils.state2initial]: the dictionary from a state's name to
    its two-letter code. *)
Variable state2initial : gmap string string.

Definition _fix_city_name (city : string) : string :=
  match rsplit1 " "%char city with
  | Some (a, b) => a +:+ "/" +:+ b
  | None => city
  end.

(** [np.where(df['name'].str.startswith(p), df['name'].str[n:], None)]. *)
Definition where_startswith (p : string) (n : nat) (r : Row) : option string :=
  nm ← name r;
  if String.prefix p nm then Some (str_from n nm) else None.

Definition set_state (v : option string) (r : Row) : Row :=
  mkRow (date r) (name r) v (city r) (newCases r) (totalCases r).
Definition set_city (v : option string) (r : Row) : Row :=
  mkRow (date r) (name r) (state r) v (newCases r) (totalCases r).
Definition set_totalCases (v : option Z) (r : Row) : Row :=
  mkRow (date r) (name r) (state r) (city r) (newCases r) v.

(** The function returns nothing ([None]) for any other [by]. *)
Definition prepare_fiocruz_data (df : list Row) (by_ : string) : option (list Row) :=
  if String.eqb by_ "state" then
    Some ((λ r, set_state ((λ s, default s (state2initial !! s)) <$> state r) r)
          <$> filter (λ r, is_Some (state r))
                ((λ r, set_state (where_startswith "#BR" 5 r) r) <$> df))
  else if String.eqb by_ "city" then
    Some ((λ r, set_city (_fix_city_name <$> city r) r)
          <$> filter (λ r, is_Some (city r))
                ((λ r, set_city (where_startswith "#Mun BR" 9 r) r) <$> df))
  else None.

(** [df.groupby([by])['newCases'].cumsum()]: the running total of each
    group in the order of the rows; [acc] holds the total of each group so
    far.  A missing value stays missing and is skipped. *)
Fixpoint groupby_cumsum (by_ : string) (acc : gmap string Z) (df : list Row)
  : list (option Z) :=
  match df with
  | [] => []
  | r :: df' =>
      match get_by by_ r, newCases r with
      | Some k, Some n =>
          let s := default 0 (acc !! k) + n in
          Some s :: groupby_cumsum by_ (<[k := s]> acc) df'
      | _, _ => None :: groupby_cumsum by_ acc df'
      end
  end.

(** [df.groupby(['date', by])[['newCases', 'totalCases']].sum()]: one row
    per (date, region) in ascending order, a row with no region left out. *)
Definition keyed (by_ : string) (df : list Row) : list ((Z * string) * Row) :=
  omap (λ r, k ← get_by by_ r; Some ((date r, k), r)) df.

Definition group (by_ : string) (df : list Row) (k : Z * string) : list Row :=
  (filter (λ kr, cmp_eqb kr.1 k = true) (keyed by_ df)).*2.

Definition groupby_sum (by_ : string) (df : list Row) : list ((Z * string) * (Z * Z)) :=
  (λ k, (k, (sum_skipna (newCases <$> group by_ df k),
             sum_skipna (totalCases <$> group by_ df k))))
  <$> sort_uniq (keyed by_ df).*1.

(** [.unstack(by)]: the regions become a second level of column labels
    under the two measures; a (date, region) with no row is missing. *)
Definition measure_of (m : string) (v : Z * Z) : Z :=
  if String.eqb m "newCases" then v.1 else v.2.

Definition unstack (g : list ((Z * string) * (Z * Z))) : Wide (option Z) :=
  let dates := sort_uniq (g.*1).*1 in
  let regions := sort_uniq (g.*1).*2 in
  let cols := ((λ r : string, ("newCases", r)) <$> regions)
              ++ ((λ r : string, ("totalCases", r)) <$> regions) in
  mkWide dates cols
    ((λ d, (λ c : string * string, measure_of c.1 <$> lookup_label (d, c.2) g) <$> cols)
     <$> dates).

Definition from_ms (r : MsRow) : Row :=
  mkRow (ms_date r) None (estado r) None (casosNovos r) (casosAcumulados r).

Definition from_fiocruz (r : FiocruzRow) : Row :=
  mkRow (fz_date r) (fz_name r) None None (new_cases r) None.

Definition load_cases (w : World) (by_ source : string) : IO (Wide Z) :=
  py_assert (py_in source ["ms"; "wcota"; "fiocruz"]) ;;
  py_assert (py_in by_ ["state"; "city"]) ;;
  df ← (if String.eqb source "ms" then
          py_assert (String.eqb by_ "state") ;;
          t ← read_csv COVID_SAUDE_URL (ms_csv w);
          mret (from_ms <$> t)
        else if String.eqb source "wcota" then
          t ← read_csv COVID_19_BY_CITY_URL (wcota_csv w);
          mret (filter (λ r, state r ≠ Some "TOTAL") t)
        else if String.eqb source "fiocruz" then
          t ← read_csv FIOCRUZ_URL (fiocruz_csv w);
          df ← lift (match prepare_fiocruz_data (from_fiocruz <$> t) by_ with
                     | Some df => Ok df
                     | None => Raise TypeError
                     end);
          mret (zip_with set_totalCases (groupby_cumsum by_ ∅ df) df)
        else lift (Raise TypeError));   (* df is unbound: not reached *)
  lift (astype_int (fillna 0 (swaplevel (sort_index (unstack (groupby_sum by_ df)))))).

(** The frame [df] that [load_cases] builds for a source before it groups
    it, and the URL it fetches. *)
Definition fiocruz_rows (w : World) (by_ : string) : list Row :=
  default [] (prepare_fiocruz_data (from_fiocruz <$> fiocruz_csv w) by_).

Definition fiocruz_frame (w : World) (by_ : string) : list Row :=
  let df := fiocruz_rows w by_ in
  zip_with set_totalCases (groupby_cumsum by_ ∅ df) df.

(** The new cases of a region up to a date. *)
Definition cumulative (by_ : string) (df : list Row) (region : string) (d : Z) : Z :=
  sum_skipna (newCases <$> filter (λ r, get_by by_ r = Some region ∧ date r ≤ d) df).

Definition source_frame (w : World) (by_ source : string) : list Row :=
  if String.eqb source "ms" then from_ms <$> ms_csv w
  else if String.eqb source "wcota" then filter (λ r, state r ≠ Some "TOTAL") (wcota_csv w)
  else fiocruz_frame w by_.

Definition source_url (source : string) : string :=
  if String.eqb source "ms" then COVID_SAUDE_URL
  else if String.eqb source "wcota" then COVID_19_BY_CITY_URL
  else FIOCRUZ_URL.

(** The rows of a frame of one region on one date. *)
Definition rows_of (by_ : string) (df : list Row) (d : Z) (region : string) : list Row :=
  filter (λ r, date r = d ∧ get_by by_ r = Some region) df.

(** The order of the file is the order of time within every region. *)
Definition chronological (by_ : string) (df : list Row) : Prop :=
  ∀ (i j : nat) (ri rj : Row) (k : string),
    df !! i = Some ri → df !! j = Some rj →
    get_by by_ ri = Some k → get_by by_ rj = Some k →
    (i < j)%nat → date ri < date rj.

End prepare.

(** A table given by its labels and a function of them. *)
Definition tabulate {V} (idx : list Z) (cols : list (string * string))
    (f : Z → string * string → V) : Wide V :=
  mkWide idx cols ((λ d, f d <$> cols) <$> idx).

(** The labels of the table [load_cases] returns, read off the frame. *)
Definition table_dates (by_ : string) (df : list Row) : list Z :=
  sort_uniq ((keyed by_ df).*1).*1.
Definition table_regions (by_ : string) (df : list Row) : list string :=
  sort_uniq ((keyed by_ df).*1).*2.
Definition table_columns (by_ : string) (df : list Row) : list (string * string) :=
  ((λ r : string, (r, "newCases")) <$> table_regions by_ df)
  ++ ((λ r : string, (r, "totalCases")) <$> table_regions by_ df).

(** The value of a cell: the sum over the rows of the region on the date,
    0 when there is none. *)
Definition table_value (by_ : string) (df : list Row) (d : Z) (c : string * string) : Z :=
  if String.eqb c.2 "newCases" then sum_skipna (newCases <$> rows_of by_ df d c.1)
  else sum_skipna (totalCases <$> rows_of by_ df d c.1).

(** A row of [data/ibge_population.csv].  The file is not among the
    sources: [load_population] takes its rows as a parameter. *)
Record PopRow := mkPopRow {
  uf : string;
  pop_city : string;
  estimated_population : Z
}.


Definition pop_key (by_ : string) (r : PopRow) : option string :=
  if String.eqb by_ "state" then Some (uf r)
  else if String.eqb by_ "city" then Some (pop_city r +:+ "/" +:+ uf r)
  else None.

(** The result is a Series: its index (the keys) and its values. *)
Definition load_population (ibge : list PopRow) (by_ : string) : result (list (string * Z)) :=
  if py_in by_ ["state"; "city"] then
    let rows := omap (λ r, k ← pop_key by_ r; Some (k, estimated_population r)) ibge in
    let s := (λ k, (k, foldr Z.add 0 (filter (λ kv, cmp_eqb kv.1 k = true) rows).*2))
             <$> sort_uniq rows.*1 in
    Ok (sort_rows s)
  else Raise AssertionError.


End data.

(** ** simulator/pages/utils/viz.py *)

Module viz.

(** A value held by a frame. *)
Inductive scalar :=
| SInt (z : Z)
| SFloat (f : float)
| SStr (s : string)
| SDate (d : Z)
| SBool (b : bool).

(** A column label: a position (RangeIndex) or a name. *)
Inductive label :=
| LInt (z : Z)
| LStr (s : string).

#[export] Instance label_eq_dec : EqDecision label.
Proof. solve_decision. Defined.

Definition label_str (l : label) : string :=
  match l with
  | LInt z => pretty z
  | LStr s => s
  end.

Definition label_scalar (l : label) : scalar :=
  match l with
  | LInt z => SInt z
  | LStr s => SStr s
  end.

Definition nan : float := PrimFloat.nan.

(** int64 to float64. *)
Definition float_of_Z (z : Z) : float :=
  match z with
  | Z0 => 0%float
  | Zpos _ => PrimFloat.of_uint63 (Uint63.of_Z z)
  | Zneg _ => PrimFloat.opp (PrimFloat.of_uint63 (Uint63.of_Z (- z)))
  end.

Definition float_cmp (x y : float) : comparison :=
  match PrimFloat.compare x y with
  | FEq => Eq
  | FLt => Lt
  | FGt => Gt
  | FNotComparable =>   (* NaN sorts last *)
      if PrimFloat.is_nan x then (if PrimFloat.is_nan y then Eq else Gt) else Lt
  end.

Definition kind (a : scalar) : Z :=
  match a with
  | SBool _ => 0
  | SInt _ => 1
  | SFloat _ => 2
  | SDate _ => 3
  | SStr _ => 4
  end.

(** The order of labels and group keys.  A column has one dtype, so only
    the order within a kind matters; kinds are kept apart. *)
#[export] Instance scalar_cmp : Cmp scalar :=
  λ a b, match a, b with
         | SInt x, SInt y => Z.compare x y
         | SFloat x, SFloat y => float_cmp x y
         | SStr x, SStr y => String.compare x y
         | SDate x, SDate y => Z.compare x y
         | SBool x, SBool y => Bool.compare x y
         | _, _ => Z.compare (kind a) (kind b)
         end.

Definition isna (a : scalar) : bool :=
  match a with
  | SFloat f => PrimFloat.is_nan f
  | _ => false
  end.

(** A frame: the index with its name, and the labelled columns.  [L] is
    the type of a column label, [V] of a cell. *)
Record Frame (L V : Type) := mkFrame {
  index_name : option string;
  index : list scalar;
  columns : list (L * list V)
}.
Arguments mkFrame {L V} _ _ _.
Arguments index_name {L V} _.
Arguments index {L V} _.
Arguments columns {L V} _.

Abbreviation DataFrame := (Frame label scalar).

(** A two-dimensional float64 array: [shape = (length rows, ncols)]. *)
Record ndarray := mkArray {
  ncols : nat;
  rows : list (list float)
}.

Definition RangeIndex (n : nat) : list scalar := (λ i : nat, SInt (Z.of_nat i)) <$> seq 0 n.

(** [df[name]]. *)
Fixpoint getitem {L V} `{EqDecision L} (cols : list (L * list V)) (c : L) : option (list V) :=
  match cols with
  | [] => None
  | (c', v) :: cols' => if decide (c = c') then Some v else getitem cols' c
  end.

(** [pd.DataFrame(arr, index=index)]: one column per column of the array,
    labelled by position. *)
Definition DataFrame_of_array (arr : ndarray) (idx : list Z) : result DataFrame :=
  if decide (length idx = length (rows arr)) then
    Ok (mkFrame None (SInt <$> idx)
          ((λ j : nat, (LInt (Z.of_nat j), (λ r, SFloat (default nan (r !! j))) <$> rows arr))
           <$> seq 0 (ncols arr)))
  else Raise (ValueError "Shape of passed values does not match the index").

(** [df.unstack()] of a frame with one-level columns: a Series with a
    two-level index (column label, index label), column by column. *)
Definition unstack (df : DataFrame) : list ((scalar * scalar) * scalar) :=
  c ← columns df; zip ((λ i, (label_scalar c.1, i)) <$> index df) c.2.

(** [s.reset_index()] of such a Series. *)
Definition reset_index_series (s : list ((scalar * scalar) * scalar)) : DataFrame :=
  mkFrame None (RangeIndex (length s))
    [(LStr "level_0", (s.*1).*1); (LStr "level_1", (s.*1).*2); (LInt 0, s.*2)].

(** [df.rename(columns=mapping)]: a label the mapping has is replaced. *)
Fixpoint rename_label (mapping : list (label * label)) (c : label) : label :=
  match mapping with
  | [] => c
  | m :: mapping' => if decide (c = m.1) then m.2 else rename_label mapping' c
  end.

Definition rename {V} (mapping : list (label * label)) (df : Frame label V) : Frame label V :=
  mkFrame (index_name df) (index df)
    ((λ c : label * list V, (rename_label mapping c.1, c.2)) <$> columns df).

Definition unstack_iterations_ndarray (arr : ndarray) (t_space : list Z) (name : string)
  : result DataFrame :=
  df ← DataFrame_of_array arr t_space;
  Ok (rename [(LStr "level_0", LStr "iteration"); (LStr "level_1", LStr "Dias"); (LInt 0, LStr name)]
        (reset_index_series (unstack df))).

(** [df.columns = df.columns.droplevel()]. *)
Definition droplevel_col_index {V} (df : Frame (label * label) V) : Frame label V :=
  mkFrame (index_name df) (index df) ((λ c : (label * label) * list V, (c.1.2, c.2)) <$> columns df).

(** [df.assign(name=values)]: the column is replaced where it stands, or
    added at the end. *)
Fixpoint set_column {V} (cols : list (label * list V)) (c : label) (v : list V)
  : list (label * list V) :=
  match cols with
  | [] => [(c, v)]
  | x :: cols' => if decide (c = x.1) then (c, v) :: cols' else x :: set_column cols' c v
  end.

Definition assign {V} (c : string) (f : Frame label V → result (list V)) (df : Frame label V)
  : result (Frame label V) :=
  v ← f df;
  Ok (mkFrame (index_name df) (index df) (set_column (columns df) (LStr c) v)).

Definition add_prefix {V} (p : string) (df : Frame label V) : Frame label V :=
  mkFrame (index_name df) (index df)
    ((λ c : label * list V, (LStr (p +:+ label_str c.1), c.2)) <$> columns df).

Definition column {V} (df : Frame label V) (c : string) : result (list V) :=
  match getitem (columns df) (LStr c) with
  | Some v => Ok v
  | None => Raise (KeyError c)
  end.

(** The numeric value of a cell, for an aggregation. *)
Definition to_float (a : scalar) : option float :=
  match a with
  | SInt z => Some (float_of_Z z)
  | SFloat f => Some f
  | SBool b => Some (if b then 1%float else 0%float)
  | _ => None
  end.

Section aggregation.

(** [np.mean] and [np.std] as [agg] applies them to the values of one
    group (for [np.std], the sample standard deviation). *)
Variables np_mean np_std : list float → float.

(** What [df.groupby(key)] groups by: the column labelled [key], or the
    index when the index has this name and no column has.  A name that is
    both is refused as ambiguous, and so is a label that several columns
    have, which selects a frame where a column is needed. *)
Definition grouper (df : DataFrame) (key : string) : result (list scalar) :=
  let is_level := bool_decide (index_name df = Some key) in
  match filter (λ c : label * list scalar, c.1 = LStr key) (columns df) with
  | [] => if is_level then Ok (index df) else Raise (KeyError key)
  | c :: others =>
      if is_level then
        Raise (ValueError ("'" +:+ key
                           +:+ "' is both an index level and a column label, which is ambiguous."))
      else
        match others with
        | [] => Ok c.2
        | _ :: _ => Raise (ValueError ("Grouper for '" +:+ key +:+ "' not 1-dimensional"))
        end
  end.

(** [df.groupby(key).agg({variable: [np.mean, np.std]})]: one row per
    distinct key in ascending order, missing keys left out; the columns are
    labelled [(variable, "mean")] and [(variable, "std")]. *)
Definition groupby_agg (df : DataFrame) (key variable : string)
  : result (Frame (label * label) float) :=
  ks ← grouper df key;
  vs ← column df variable;
  match mapM to_float vs with
  | None => Raise DataError
  | Some fs =>
      let keys := sort_uniq (filter (λ k, isna k = false) ks) in
      let grp k := (filter (λ kv : scalar * float, cmp_eqb kv.1 k = true) (zip ks fs)).*2 in
      Ok (mkFrame (Some key) keys
            [((LStr variable, LStr "mean"), (λ k, np_mean (grp k)) <$> keys);
             ((LStr variable, LStr "std"), (λ k, np_std (grp k)) <$> keys)])
  end.

Definition compute_mean_and_boundaries (df : DataFrame) (variable : string)
  : result (Frame label float) :=
  if negb (bool_decide (LStr variable ∈ (columns df).*1)) then
    Raise (ValueError ("No column named " +:+ variable
                       +:+ ". Variable name must refer to a dataframe column"))
  else
    g ← groupby_agg df "Dias" variable;
    a ← assign "upper"
          (λ df, m ← column df "mean"; s ← column df "std"; Ok (zip_with PrimFloat.add m s))
          (droplevel_col_index g);
    b ← assign "lower"
          (λ df, m ← column df "mean"; s ← column df "std"; Ok (zip_with PrimFloat.sub m s))
          a;
    Ok (add_prefix (variable +:+ "_") b).

(** [Index.is_unique]. *)
Fixpoint is_unique (l : list scalar) : bool :=
  match l with
  | [] => true
  | x :: l' => negb (existsb (cmp_eqb x) l') && is_unique l'
  end.

(** The suffix [merge] gives a label that both sides have. *)
Definition suffixed (sfx : string) (others : list label) (c : label) : label :=
  if bool_decide (c ∈ others) then LStr (label_str c +:+ sfx) else c.

(** [left.merge(right, how="left", left_index=True, right_index=True,
    validate="1:1")]: the keys of both sides must be unique; every row of
    the left side is kept, with the row of the right side that has its key,
    or missing values. *)
Definition merge (left right : Frame label float) : result (Frame label float) :=
  if is_unique (index left) && is_unique (index right) then
    let pos := (λ k, get_loc k (index right)) <$> index left in
    Ok (mkFrame (index_name left) (index left)
          (((λ c : label * list float, (suffixed "_x" (columns right).*1 c.1, c.2))
            <$> columns left)
           ++ ((λ c : label * list float,
                  (suffixed "_y" (columns left).*1 c.1,
                   (λ p : option nat, default nan (p ≫= (c.2 !!.))) <$> pos))
               <$> columns right)))
  else Raise MergeError.

(** [df.reset_index()]: the index becomes the first column. *)
Definition reset_index (df : Frame label float) : DataFrame :=
  mkFrame None (RangeIndex (length (index df)))
    ((LStr (default "index" (index_name df)), index df)
     :: ((λ c : label * list float, (c.1, SFloat <$> c.2)) <$> columns df)).

(** Dates are days counted from 1970-01-01.  A [Timestamp] and a
    [Timedelta] hold their nanoseconds in an int64, which at midnight leaves
    room for 106751 days either way. *)
Definition Timestamp_days : Z := 106751.

Definition in_Timestamp (d : Z) : bool :=
  (- Timestamp_days <=? d) && (d <=? Timestamp_days).

(** [pd.to_datetime(date)]. *)
Definition to_datetime (d : Z) : result Z :=
  if in_Timestamp d then Ok d else Raise OutOfBoundsDatetime.

(** [timedelta(days)]: Python takes up to 999999999 days either way. *)
Definition timedelta (days : Z) : result Z :=
  if Z.abs days <=? 999999999 then Ok days else Raise OverflowError.

(** [start_datetime + timedelta(offset)], with whole days.  Time steps are
    integers; a fractional offset has no day number.  The sum is refused
    when the offset or the date it leads to leaves the int64 nanoseconds. *)
Definition add_days (start : Z) (offset : scalar) : result scalar :=
  days ← match offset with
         | SInt z => Ok z
         | SBool b => Ok (if b then 1 else 0)
         | _ => Raise TypeError
         end;
  delta ← timedelta days;
  if negb (in_Timestamp delta) then Raise OverflowError
  else if negb (in_Timestamp (start + delta)) then Raise OutOfBoundsDatetime
  else Ok (SDate (start + delta)).

Fixpoint mapR {A B} (f : A → result B) (l : list A) : result (list B) :=
  match l with
  | [] => Ok []
  | x :: l' => y ← f x; ys ← mapR f l'; Ok (y :: ys)
  end.

Definition exposto_name : string := "Exposto".
Definition infectado_name : string := "Infectado".
Definition obito_name : string := "Óbito".

Definition with_dates (start_date : Z) (data : DataFrame) : result DataFrame :=
  start_datetime ← to_datetime start_date;
  offsets ← match getitem (columns data) (LStr "Dias") with
            | Some v => Ok v
            | None => Raise (KeyError "Dias")
            end;
  dates ← mapR (add_days start_datetime) offsets;
  Ok (mkFrame (index_name data) (index data) (set_column (columns data) (LStr "Datas") dates)).

Definition prep_tidy_data_to_plot (E I : ndarray) (t_space : list Z) (start_date : Z)
  : result DataFrame :=
  df_E ← unstack_iterations_ndarray E t_space exposto_name;
  df_I ← unstack_iterations_ndarray I t_space infectado_name;
  agg_df_E ← compute_mean_and_boundaries df_E exposto_name;
  agg_df_I ← compute_mean_and_boundaries df_I infectado_name;
  merged ← merge agg_df_E agg_df_I;
  with_dates start_date (reset_index merged).

Definition prep_death_data_to_plot (R : ndarray) (t_space : list Z) (start_date : Z)
  : result DataFrame :=
  df_R ← unstack_iterations_ndarray R t_space obito_name;
  agg_df_R ← compute_mean_and_boundaries df_R obito_name;
  with_dates start_date (reset_index agg_df_R).

End aggregation.

(** *** Frames as objects

    [_treat_negative_values_to_plot] is given a frame by reference.  The
    heap holds the frames; an operation that builds a frame allocates it. *)

Abbreviation heap := (gmap nat DataFrame).

Definition St (A : Type) : Type := heap → result A * heap.

#[export] Instance St_ret : MRet St := λ A a h, (Ok a, h).
#[export] Instance St_bind : MBind St :=
  λ A B f m h,
    match m h with
    | (Ok a, h') => f a h'
    | (Raise e, h') => (Raise e, h')
    end.

Definition raise {A} (e : exn) : St A := λ h, (Raise e, h).

Definition deref (l : nat) : St DataFrame :=
  λ h, match h !! l with
       | Some df => (Ok df, h)
       | None => (Raise TypeError, h)
       end.

Definition alloc (df : DataFrame) : St nat :=
  λ h, let l := fresh (dom h) in (Ok l, <[l := df]> h).

Definition store (l : nat) (df : DataFrame) : St () :=
  λ h, (Ok (), <[l := df]> h).

(** [df[cols]] with a list of labels: a new frame. *)
Definition getitem_columns (l : nat) (cols : list label) : St nat :=
  df ← deref l;
  match mapM (λ c, (λ v, (c, v)) <$> getitem (columns df) c) cols with
  | Some cs => alloc (mkFrame (index_name df) (index df) cs)
  | None => raise (KeyError "columns")
  end.

Definition le_scalar (a : scalar) (bound : Z) : option bool :=
  match a with
  | SInt z => Some (z <=? bound)
  | SFloat f => Some (PrimFloat.leb f (float_of_Z bound))
  | SBool b => Some ((if b then 1 else 0) <=? bound)
  | SStr _ | SDate _ => None
  end.

(** [df <= bound]: a new frame of booleans; a text or a date is not
    comparable with a number. *)
Definition frame_le (l : nat) (bound : Z) : St nat :=
  df ← deref l;
  match mapM (λ c : label * list scalar,
                (λ v, (c.1, SBool <$> v)) <$> mapM (λ a, le_scalar a bound) c.2)
             (columns df) with
  | Some cs => alloc (mkFrame (index_name df) (index df) cs)
  | None => raise TypeError
  end.

(** [df[mask]] with a frame of booleans ([df.where(mask)]): a new frame
    that keeps a cell where the mask holds and is missing elsewhere, also in
    the columns the mask does not have. *)
Definition getitem_mask (l m : nat) : St nat :=
  df ← deref l;
  mask ← deref m;
  alloc (mkFrame (index_name df) (index df)
           ((λ c : label * list scalar,
               (c.1, imap (λ i a, match getitem (columns mask) c.1 ≫= (.!! i) with
                                  | Some (SBool true) => a
                                  | _ => SFloat nan
                                  end) c.2))
            <$> columns df)).

(** [df[cols] = v] with a list of labels and a scalar: each of the columns
    of the frame [l] is overwritten, in place. *)
Definition setitem_columns (l : nat) (cols : list label) (v : scalar) : St () :=
  df ← deref l;
  store l (mkFrame (index_name df) (index df)
             (foldl (λ cs c, set_column cs c (replicate (length (index df)) v)) (columns df) cols)).

Section treat.

(** [pandas.api.types.is_numeric_dtype], which the code applies to the
    column labels. *)
Variable is_numeric_dtype : label → bool.

Definition _treat_negative_values_to_plot (df : nat) : St nat :=
  d ← deref df;
  let numeric_columns := filter (λ col, is_numeric_dtype col = true) (columns d).*1 in
  sel ← getitem_columns df numeric_columns;
  mask ← frame_le sel 0;
  tmp ← getitem_mask df mask;
  setitem_columns tmp numeric_columns (SFloat 1) ;;
  mret df.

End treat.

(** *** The reproduction-number chart *)

(** [pd.date_range(end=date, periods=n)]. *)
Definition date_range (end_ : Z) (periods : nat) : list Z :=
  (λ i : nat, end_ - Z.of_nat periods + 1 + Z.of_nat i) <$> seq 0 periods.

(** [pd.DataFrame(arr, columns=columns).stack(level=0)]: a Series with a
    two-level index (row position, column label), row by row, the missing
    values dropped. *)
Definition stack (arr : ndarray) (cols : list Z) : list ((scalar * scalar) * scalar) :=
  filter (λ x, isna x.2 = false)
    ('(i, r) ← zip (seq 0 (length (rows arr))) (rows arr);
     zip_with (λ c v, ((SInt (Z.of_nat i), SDate c), SFloat v)) cols r).

(** [df[[a, b]]]. *)
Definition select (cols : list label) (df : DataFrame) : result DataFrame :=
  match mapM (λ c, (λ v, (c, v)) <$> getitem (columns df) c) cols with
  | Some cs => Ok (mkFrame (index_name df) (index df) cs)
  | None => Raise (KeyError "columns")
  end.

(** The chart: the table both layers draw, and the title. *)
Record Chart := mkChart {
  chart_data : DataFrame;
  chart_title : string
}.

Definition plot_r0 (r0_samples : ndarray) (date : Z) (place : string) (min_days : Z)
  : result Chart :=
  let r0_samples_cut := mkArray (ncols r0_samples) (slice_from (- min_days) (rows r0_samples)) in
  let columns := date_range date (ncols r0_samples_cut) in
  data ← select [LStr "Dias"; LStr "r0"]
           (rename [(LStr "level_1", LStr "Dias"); (LInt 0, LStr "r0")]
              (reset_index_series (stack r0_samples_cut columns)));
  Ok (mkChart data ("Número básico de reprodução para " +:+ place)).

(** The cut as the specification words it: the most recent [min_days]
    columns (days) of the matrix, every row (sample) kept. *)
Definition recent_columns (arr : ndarray) (min_days : Z) : ndarray :=
  mkArray (length (slice_from (- min_days) (seq 0 (ncols arr))))
          (slice_from (- min_days) <$> rows arr).

Definition plot_r0_as_specified (r0_samples : ndarray) (date : Z) (place : string)
    (min_days : Z) : result Chart :=
  let r0_samples_cut := recent_columns r0_samples min_days in
  let columns := date_range date (ncols r0_samples_cut) in
  data ← select [LStr "Dias"; LStr "r0"]
           (rename [(LStr "level_1", LStr "Dias"); (LInt 0, LStr "r0")]
              (reset_index_series (stack r0_samples_cut columns)));
  Ok (mkChart data ("Número básico de reprodução para " +:+ place)).

End viz.

(** ** Vocabulary of the statements *)

(** A computation keeps the frames of [h0]: run on a heap that holds them
    it leaves them as they are, and its result satisfies [Q]. *)
Definition keeps {A} (h0 : viz.heap) (m : viz.St A) (Q : A → Prop) : Prop :=
  ∀ h : viz.heap, h0 ⊆ h → h0 ⊆ (m h).2 ∧ ∀ a, (m h).1 = Ok a → Q a.

(** The long form of one column of an array whose rows are the time
    steps: the cells of iteration [c], with their labels. *)
Definition chunk (arr : viz.ndarray) (t_space : list Z) (c : nat)
  : list ((viz.scalar * viz.scalar) * viz.scalar) :=
  zip ((λ i, (viz.SInt (Z.of_nat c), i)) <$> (viz.SInt <$> t_space))
      ((λ r, viz.SFloat (default viz.nan (r !! c))) <$> viz.rows arr).

(** The time steps a start date can be moved by: the start date, every
    step and every date reached are within the 106751 days that a
    [Timestamp] and a [Timedelta] hold either way. *)
Definition dates_fit (start_date : Z) (offsets : list Z) : Prop :=
  - 106751 ≤ start_date ≤ 106751
  ∧ Forall (λ t, - 106751 ≤ t ≤ 106751 ∧ - 106751 ≤ start_date + t ≤ 106751) offsets.

(** ** Sample inputs *)

(** Two states; Acre has no row on days 1 and 3, São Paulo none on day 2. *)
Definition sample_state2initial : gmap string string :=
  {[ "São Paulo" := "SP"; "Acre" := "AC" ]}.

Definition sample_fiocruz : data.World :=
  data.mkWorld [] []
    [data.mkFiocruzRow 1 (Some "#BR: São Paulo") (Some 3);
     data.mkFiocruzRow 2 (Some "#BR: Acre") (Some 1);
     data.mkFiocruzRow 3 (Some "#BR: São Paulo") (Some 2);
     data.mkFiocruzRow 3 (Some "#Mun BR: Xapuri AC") (Some 1)].

(** The mean and the sample standard deviation, computed naively. *)
Definition sample_mean (l : list float) : float :=
  (foldr PrimFloat.add 0 l / viz.float_of_Z (Z.of_nat (length l)))%float.

Definition sample_std (l : list float) : float :=
  let m := sample_mean l in
  PrimFloat.sqrt
    (foldr (λ x a, (x - m) * (x - m) + a) 0 l / viz.float_of_Z (Z.of_nat (length l) - 1))%float.

(** Two time steps (rows) of three iterations (columns). *)
Definition sample_E : viz.ndarray := viz.mkArray 3 [[0; 2; 4]; [4; 5; 9]]%float.
Definition sample_I : viz.ndarray := viz.mkArray 3 [[0; 2; 4]; [1; 1; 1]]%float.

Definition sample_long : viz.DataFrame :=
  viz.mkFrame None (viz.RangeIndex 6)
    [(viz.LStr "iteration", viz.SInt <$> [0; 0; 1; 1; 2; 2]);
     (viz.LStr "Dias", viz.SInt <$> [0; 1; 0; 1; 0; 1]);
     (viz.LStr "Exposto", viz.SFloat <$> [0; 4; 2; 5; 4; 9]%float)].

(** Two samples (rows) of the reproduction number on three days (columns). *)
Definition sample_r0 : viz.ndarray := viz.mkArray 3 [[1; 2; 3]; [4; 5; 6]]%float.


(** ** Vocabulary of the further properties *)

(** [c in s]. *)
Fixpoint contains (c : ascii) (s : string) : bool :=
  match s with
  | EmptyString => false
  | String c' s' => Ascii.eqb c' c || contains c s'
  end.

(** The mark that the name of a fiocruz row of a grouping starts with, and
    the rows that carry a mark. *)
Definition fiocruz_mark (by_ : string) : string :=
  if String.eqb by_ "state" then "#BR" else "#Mun BR".

Definition marked (p : string) (r : data.Row) : bool :=
  match data.name r with
  | Some nm => String.prefix p nm
  | None => false
  end.

(** The values of a column on the rows of one time step, in the order of
    the rows. *)
Definition values_at (ts : list Z) (vs : list float) (t : Z) : list float :=
  (filter (λ p : Z * float, p.1 = t) (zip ts vs)).*2.

(** ** simulator/pages/utils/viz.py: the charts of the derived demands and
       the error bands *)

Module charts.
Import viz.

(** A line chart: its table, its title, and the fields of its axes. *)
Record LineChart := mkLineChart {
  lc_data : DataFrame;
  lc_title : string;
  lc_x : string;
  lc_y : label;
  lc_y_title : string
}.

(** [index.drop(l)]: the labels other than [l]; when [l] is not among them
    pandas raises a KeyError, which names it. *)
Definition index_drop (labels : list label) (l : label) : result (list label) :=
  if bool_decide (l ∈ labels) then Ok (filter (λ c, c ≠ l) labels)
  else Raise (KeyError (label_str l)).

(** The day offsets are whole days, which [add_days] turns into dates. *)
Definition create_derivative_chart (derivative : label) (df : DataFrame) (start_date : Z)
  : result LineChart :=
  days ← column df "day";
  dates ← mapR (λ d, start_datetime ← to_datetime start_date; add_days start_datetime d) days;
  Ok (mkLineChart
        (mkFrame (index_name df) (index df) (set_column (columns df) (LStr "day") dates))
        ("Demanda de " +:+ label_str derivative)
        "day:T" derivative ("Qtde. de " +:+ label_str derivative)).

(** The charts that [vconcat] stacks, from top to bottom. *)
Definition plot_derivatives (derivatives_df : DataFrame) (start_date : Z)
  : result (list LineChart) :=
  ds ← index_drop (columns derivatives_df).*1 (LStr "day");
  mapR (λ derivative, create_derivative_chart derivative derivatives_df start_date) ds.

(** An area chart: the frame it draws, the filter of its rows, and its
    encodings. *)
Record AreaChart := mkAreaChart {
  ac_source : nat;
  ac_filter : string;
  ac_color : string;
  ac_x : string;
  ac_y : string;
  ac_y2 : string;
  ac_scale : string
}.

Section band.

Variable is_numeric_dtype : label → bool.

(** [round] to no decimals, on float64. *)
Variable np_round : float → float.

Definition round_cell (a : scalar) : scalar :=
  match a with
  | SFloat f => SFloat (np_round f)
  | _ => a
  end.

Definition is_float_cell (a : scalar) : bool :=
  match a with
  | SFloat _ => true
  | _ => false
  end.

(** [Series.round] as [DataFrame.round] applies it: a float column is
    rounded; an integer column has nothing to round, and a column of
    another dtype is passed on as it is. *)
Definition round_series (v : list scalar) : list scalar :=
  if forallb is_float_cell v then round_cell <$> v else v.

(** [df.round({a: 0, b: 0})]: a new frame, the named columns rounded. *)
Definition round_columns (l : nat) (names : list label) : St nat :=
  df ← deref l;
  alloc (mkFrame (index_name df) (index df)
           ((λ c : label * list scalar,
               if bool_decide (c.1 ∈ names) then (c.1, round_series c.2) else c)
            <$> columns df)).

Definition make_exposed_infected_error_area_chart (data : nat)
    (variable color scale : string) : St AreaChart :=
  treated_source ← _treat_negative_values_to_plot is_numeric_dtype data;
  treated_source ← round_columns treated_source
                     [LStr (variable +:+ "_lower"); LStr (variable +:+ "_upper")];
  mret (mkAreaChart treated_source ("datum." +:+ variable +:+ "_lower > 0") color
          "Datas:T" (variable +:+ "_upper") (variable +:+ "_lower") scale).

End band.

End charts.

(** ** Further sample inputs *)

(** A wcota file with the aggregate row of a day, and the same file with
    its rows in another order. *)
Definition sample_wcota : data.World :=
  data.mkWorld []
    [data.mkRow 18341 None (Some "SP") (Some "Santos/SP") (Some 2) (Some 5);
     data.mkRow 18341 None (Some "AC") (Some "Xapuri/AC") (Some 1) (Some 1);
     data.mkRow 18341 None (Some "TOTAL") (Some "TOTAL") (Some 3) (Some 6)] [].

Definition sample_wcota_reordered : data.World :=
  data.mkWorld []
    [data.mkRow 18341 None (Some "TOTAL") (Some "TOTAL") (Some 3) (Some 6);
     data.mkRow 18341 None (Some "AC") (Some "Xapuri/AC") (Some 1) (Some 1);
     data.mkRow 18341 None (Some "SP") (Some "Santos/SP") (Some 2) (Some 5)] [].

Definition sample_derivatives : viz.DataFrame :=
  viz.mkFrame None (viz.RangeIndex 2)
    [(viz.LStr "day", viz.SInt <$> [0; 1]);
     (viz.LStr "leitos", [viz.SInt 3; viz.SInt 5]);
     (viz.LStr "UTI", [viz.SInt 1; viz.SInt 2])].

Definition sample_ibge : list data.PopRow :=
  [data.mkPopRow "SP" "Santos" 5; data.mkPopRow "AC" "Xapuri" 7; data.mkPopRow "SP" "Itu" 1].


(** * Properties *)

(** ** The order of labels *)

Class CmpLaws (K : Type) `{Cmp K} : Prop := {
  cmp_eq : ∀ x y : K, cmp x y = Eq ↔ x = y;
  cmp_antisym : ∀ x y : K, cmp y x = CompOpp (cmp x y);
  cmp_lt_trans : ∀ x y z : K, cmp x y = Lt → cmp y z = Lt → cmp x z = Lt
}.

Lemma ascii_compare_lt_trans (a b c : ascii) :
  Ascii.compare a b = Lt → Ascii.compare b c = Lt → Ascii.compare a c = Lt.
Proof.
  unfold Ascii.compare. rewrite !N.compare_lt_iff. apply N.lt_trans.
Qed.

Lemma string_compare_refl (x : string) : String.compare x x = Eq.
Proof.
  induction x as [|a x IH]; simpl; [done|].
  unfold Ascii.compare. by rewrite N.compare_refl.
Qed.

Lemma string_compare_lt_trans (x y z : string) :
  String.compare x y = Lt → String.compare y z = Lt → String.compare x z = Lt.
Proof.
  revert y z. induction x as [|a x IH]; intros [|b y] [|c z]; simpl; try done.
  destruct (Ascii.compare a b) eqn:Hab; try done.
  - apply Ascii.compare_eq_iff in Hab. subst b.
    destruct (Ascii.compare a c); try done. apply IH.
  - intros _. destruct (Ascii.compare b c) eqn:Hbc; try done.
    + apply Ascii.compare_eq_iff in Hbc. subst c. by rewrite Hab.
    + by rewrite (ascii_compare_lt_trans _ _ _ Hab Hbc).
Qed.

#[export] Instance Z_cmp_laws : CmpLaws Z.
Proof.
  split; unfold cmp, Z_cmp.
  - apply Z.compare_eq_iff.
  - intros. apply Z.compare_antisym.
  - intros x y z. rewrite !Z.compare_lt_iff. apply Z.lt_trans.
Qed.

#[export] Instance string_cmp_laws : CmpLaws string.
Proof.
  split; unfold cmp, string_cmp.
  - intros x y. split; [apply String.compare_eq_iff|].
    intros ->. apply string_compare_refl.
  - intros. apply String.compare_antisym.
  - apply string_compare_lt_trans.
Qed.

#[export] Instance pair_cmp_laws {A B} `{CmpLaws A, CmpLaws B} : CmpLaws (A * B).
Proof.
  split; unfold cmp, pair_cmp.
  - intros [a b] [a' b']; simpl.
    destruct (cmp a a') eqn:Ha.
    + apply cmp_eq in Ha as ->. rewrite cmp_eq. naive_solver.
    + split; [done|]. intros [= -> ->]. by rewrite (proj2 (cmp_eq a' a')) in Ha.
    + split; [done|]. intros [= -> ->]. by rewrite (proj2 (cmp_eq a' a')) in Ha.
  - intros [a b] [a' b']; simpl.
    rewrite (cmp_antisym a a'). destruct (cmp a a'); simpl; try done.
    apply cmp_antisym.
  - intros [a b] [a' b'] [a'' b'']; simpl.
    destruct (cmp a a') eqn:E1; try done.
    + apply cmp_eq in E1 as ->. destruct (cmp a' a''); try done. apply cmp_lt_trans.
    + intros _. destruct (cmp a' a'') eqn:E2; try done.
      * apply cmp_eq in E2 as <-. by rewrite E1.
      * by rewrite (cmp_lt_trans _ _ _ E1 E2).
Qed.

Section cmp_facts.
Context {K : Type} `{CmpLaws K}.

Lemma cmp_refl (x : K) : cmp x x = Eq.
Proof. by apply cmp_eq. Qed.

Lemma cmp_eqb_true (x y : K) : cmp_eqb x y = true ↔ x = y.
Proof.
  unfold cmp_eqb. rewrite <- cmp_eq. destruct (cmp x y); naive_solver.
Qed.

Lemma cmp_eqb_refl (x : K) : cmp_eqb x x = true.
Proof. by apply cmp_eqb_true. Qed.

Lemma cmp_eqb_false (x y : K) : cmp_eqb x y = false ↔ x ≠ y.
Proof.
  rewrite <- cmp_eqb_true. destruct (cmp_eqb x y); naive_solver.
Qed.

Lemma cmp_gt_lt (x y : K) : cmp x y = Gt ↔ cmp y x = Lt.
Proof.
  rewrite (cmp_antisym x y). destruct (cmp x y); naive_solver.
Qed.

Lemma cmp_lt_irrefl (x : K) : cmp x x ≠ Lt.
Proof. by rewrite cmp_refl. Qed.

Lemma cmp_lt_neq (x y : K) : cmp x y = Lt → x ≠ y.
Proof. intros Hlt ->. by apply (cmp_lt_irrefl y). Qed.

End cmp_facts.


(** ** Sorted distinct labels *)

Section sorting.
Context {K : Type} `{CmpLaws K}.

Lemma elem_of_insert_uniq (x y : K) (l : list K) :
  y ∈ insert_uniq x l ↔ y = x ∨ y ∈ l.
Proof.
  induction l as [|z l IH]; simpl.
  - rewrite list_elem_of_singleton, elem_of_nil. naive_solver.
  - destruct (cmp x z) eqn:E.
    + apply cmp_eq in E as ->. rewrite elem_of_cons. naive_solver.
    + rewrite elem_of_cons. naive_solver.
    + rewrite !elem_of_cons, IH. naive_solver.
Qed.

Lemma insert_uniq_ascending (x : K) (l : list K) :
  ascending l → ascending (insert_uniq x l).
Proof.
  unfold ascending. induction 1 as [|z l Hl IH Hz]; simpl.
  - repeat constructor.
  - destruct (cmp x z) eqn:E.
    + by constructor.
    + constructor; [by constructor|].
      constructor; [done|].
      eapply Forall_impl; [exact Hz|]. intros w Hw. by eapply cmp_lt_trans.
    + constructor; [done|].
      apply Forall_forall. intros w Hw. apply elem_of_insert_uniq in Hw as [->|Hw].
      * by apply cmp_gt_lt.
      * by eapply Forall_forall in Hz.
Qed.

Lemma elem_of_sort_uniq (x : K) (l : list K) : x ∈ sort_uniq l ↔ x ∈ l.
Proof.
  induction l as [|z l IH]; simpl; [done|].
  rewrite elem_of_insert_uniq, IH, elem_of_cons. naive_solver.
Qed.

Lemma sort_uniq_ascending (l : list K) : ascending (sort_uniq l).
Proof.
  induction l as [|z l IH]; simpl.
  - constructor.
  - by apply insert_uniq_ascending.
Qed.

Lemma ascending_NoDup (l : list K) : ascending l → NoDup l.
Proof.
  induction 1 as [|z l Hl IH Hz]; constructor; [|done].
  intros Hin. eapply Forall_forall in Hz; [|done]. by apply cmp_lt_irrefl in Hz.
Qed.

Lemma sort_uniq_NoDup (l : list K) : NoDup (sort_uniq l).
Proof. apply ascending_NoDup, sort_uniq_ascending. Qed.

Lemma insert_uniq_below (x : K) (l : list K) :
  Forall (λ y, cmp x y = Lt) l → insert_uniq x l = x :: l.
Proof. destruct 1 as [|y l Hy _]; simpl; [done|]. by rewrite Hy. Qed.

Lemma sort_uniq_id (l : list K) : ascending l → sort_uniq l = l.
Proof.
  induction 1 as [|z l Hl IH Hz]; simpl; [done|].
  fold (sort_uniq l). rewrite IH. by apply insert_uniq_below.
Qed.

Lemma ascending_lookup_lt (l : list K) (i j : nat) (x y : K) :
  ascending l → l !! i = Some x → l !! j = Some y → (i < j)%nat → cmp x y = Lt.
Proof.
  intros Hl. revert i j. induction Hl as [|z l Hl IH Hz]; intros i j Hi Hj Hij.
  - done.
  - destruct i as [|i], j as [|j]; simpl in *; try lia.
    + injection Hi as ->. eapply Forall_forall in Hz; [done|].
      by eapply list_elem_of_lookup_2.
    + eapply IH; eauto. lia.
Qed.

(** *** Lookup by label *)

Lemma get_loc_Some (x : K) (l : list K) (i : nat) :
  get_loc x l = Some i → l !! i = Some x.
Proof.
  revert i. induction l as [|y l IH]; intros i; simpl; [done|].
  destruct (cmp_eqb x y) eqn:E.
  - apply cmp_eqb_true in E as ->. by intros [= <-].
  - destruct (get_loc x l) as [j|]; simpl; [|done].
    intros [= <-]. by apply IH.
Qed.

Lemma get_loc_None (x : K) (l : list K) : get_loc x l = None ↔ x ∉ l.
Proof.
  induction l as [|y l IH]; simpl.
  - split; [|done]. intros _. apply not_elem_of_nil.
  - destruct (cmp_eqb x y) eqn:E.
    + apply cmp_eqb_true in E as ->. split; [done|]. intros []. left.
    + apply cmp_eqb_false in E. rewrite not_elem_of_cons, <- IH.
      destruct (get_loc x l); simpl; naive_solver.
Qed.


Lemma get_loc_elem_of (x : K) (l : list K) : x ∈ l → ∃ i, get_loc x l = Some i.
Proof.
  intros Hx. destruct (get_loc x l) as [i|] eqn:E; [eauto|].
  by apply get_loc_None in E.
Qed.

Lemma lookup_label_fmap {V} (f : K → V) (k : K) (ks : list K) :
  k ∈ ks → lookup_label k ((λ k, (k, f k)) <$> ks) = Some (f k).
Proof.
  induction ks as [|k' ks IH]; simpl.
  - by intros ?%elem_of_nil.
  - destruct (cmp_eqb k k') eqn:E.
    + by apply cmp_eqb_true in E as ->.
    + apply cmp_eqb_false in E. rewrite elem_of_cons. naive_solver.
Qed.

Lemma lookup_label_fmap_None {V} (f : K → V) (k : K) (ks : list K) :
  k ∉ ks → lookup_label k ((λ k, (k, f k)) <$> ks) = None.
Proof.
  induction ks as [|k' ks IH]; simpl; [done|].
  rewrite not_elem_of_cons. intros [Hne Hk].
  apply cmp_eqb_false in Hne as ->. by apply IH.
Qed.

(** *** [sort_index] of rows that are in order *)

Lemma sort_rows_id {V} (l : list (K * V)) : ascending l.*1 → sort_rows l = l.
Proof.
  induction l as [|[k v] l IH]; simpl; [done|].
  intros Hl. apply StronglySorted_inv in Hl as [Hl Hk].
  fold (sort_rows l). rewrite IH by done.
  destruct l as [|[k' v'] l]; simpl; [done|].
  apply Forall_cons in Hk as [Hk _]. simpl in Hk. by rewrite Hk.
Qed.

Lemma sort_rows_elem_of {V} (x : K * V) (l : list (K * V)) :
  x ∈ sort_rows l ↔ x ∈ l.
Proof.
  assert (Hins : ∀ (y : K * V) l', x ∈ insert_row y l' ↔ x = y ∨ x ∈ l').
  { intros y l'. induction l' as [|z l' IH]; simpl.
    - rewrite list_elem_of_singleton, elem_of_nil. naive_solver.
    - destruct (cmp y.1 z.1); rewrite !elem_of_cons; [naive_solver..|].
      rewrite IH. naive_solver. }
  induction l as [|y l IH]; simpl; [done|].
  fold (sort_rows l). rewrite Hins, IH, elem_of_cons. naive_solver.
Qed.

End sorting.

(** ** covid19/data.py: [load_population] *)

Section load_population.
Import data.






Example load_population_state :
  load_population [mkPopRow "SP" "Santos" 5; mkPopRow "AC" "Xapuri" 7; mkPopRow "SP" "Itu" 1] "state"
  = Ok [("AC", 7); ("SP", 6)].
Proof. reflexivity. Qed.

Example load_population_city :
  load_population [mkPopRow "SP" "Santos" 5; mkPopRow "AC" "Xapuri" 7; mkPopRow "SP" "Itu" 1] "city"
  = Ok [("Itu/SP", 1); ("Santos/SP", 5); ("Xapuri/AC", 7)].
Proof. reflexivity. Qed.

End load_population.

(** ** covid19/data.py: the preconditions of [load_cases] *)

Section load_cases_preconditions.
Import data.

Lemma py_in_elem_of (x : string) (l : list string) : py_in x l = true ↔ x ∈ l.
Proof.
  unfold py_in. induction l as [|y l IH]; simpl.
  - split; [done|]. by intros ?%elem_of_nil.
  - rewrite orb_true_iff, IH, elem_of_cons, String.eqb_eq. done.
Qed.

Lemma py_in_not_elem_of (x : string) (l : list string) : py_in x l = false ↔ x ∉ l.
Proof. rewrite <- py_in_elem_of. destruct (py_in x l); naive_solver. Qed.

(** C7: an unknown [source], an unknown [by], or [by='city'] with
    [source='ms'] fails on an assertion, and the log of fetched URLs is
    unchanged: no file has been requested. *)
Theorem load_cases_fails_fast (state2initial : gmap string string) (w : World)
    (by_ source : string) (log : list string) :
  source ∉ ["ms"; "wcota"; "fiocruz"] ∨ by_ ∉ ["state"; "city"]
    ∨ (by_ = "city" ∧ source = "ms") →
  load_cases state2initial w by_ source log = (Raise AssertionError, log).
Proof.
  intros Hbad. unfold load_cases, mbind, IO_bind, py_assert.
  destruct (py_in source ["ms"; "wcota"; "fiocruz"]) eqn:Hs; [|done].
  destruct (py_in by_ ["state"; "city"]) eqn:Hb; [|done].
  destruct Hbad as [Hbad|[Hbad|[-> ->]]].
  - by apply py_in_not_elem_of in Hbad; rewrite Hbad in Hs.
  - by apply py_in_not_elem_of in Hbad; rewrite Hbad in Hb.
  - reflexivity.
Qed.

Lemma load_cases_fails_fast_witness :
  load_cases ∅ (mkWorld [mkMsRow 18341 (Some "SP") (Some 110) (Some 396)] [] [])
    "city" "ms" []
  = (Raise AssertionError, []).
Proof.
  apply load_cases_fails_fast. right. right. split; reflexivity.
Defined.

Example load_cases_unknown_source :
  load_cases ∅ (mkWorld [] [] []) "state" "who" [] = (Raise AssertionError, []).
Proof. reflexivity. Qed.

End load_cases_preconditions.

(** ** covid19/data.py: the table [load_cases] returns *)

Section ascending_lists.
Context {K : Type} `{CmpLaws K}.

Lemma ascending_ext (l1 l2 : list K) :
  ascending l1 → ascending l2 → (∀ x, x ∈ l1 ↔ x ∈ l2) → l1 = l2.
Proof.
  intros H1. revert l2. induction H1 as [|x l1 Hl1 IH Hx]; intros l2 H2 Hext.
  - destruct l2 as [|y l2]; [done|].
    assert (y ∈ []) as ?%elem_of_nil by (apply Hext; left). done.
  - destruct H2 as [|y l2 Hl2 Hy].
    { assert (x ∈ []) as ?%elem_of_nil by (apply Hext; left). done. }
    rewrite Forall_forall in Hx. rewrite Forall_forall in Hy.
    assert (x = y) as <-.
    { assert (x ∈ y :: l2) as [->|Hx2]%elem_of_cons by (apply Hext; left); [done|].
      assert (y ∈ x :: l1) as [->|Hy1]%elem_of_cons by (apply Hext; left); [done|].
      pose proof (cmp_lt_trans _ _ _ (Hx _ Hy1) (Hy _ Hx2)) as Hxx.
      by apply cmp_lt_irrefl in Hxx. }
    f_equal. apply IH; [done|]. intros z. split; intros Hz.
    + assert (z ∈ x :: l2) as [->|?]%elem_of_cons by (apply Hext; by right); [|done].
      by apply Hx, cmp_lt_irrefl in Hz.
    + assert (z ∈ x :: l1) as [->|?]%elem_of_cons by (apply Hext; by right); [|done].
      by apply Hy, cmp_lt_irrefl in Hz.
Qed.

Lemma sort_uniq_ext (l1 l2 : list K) :
  (∀ x, x ∈ l1 ↔ x ∈ l2) → sort_uniq l1 = sort_uniq l2.
Proof.
  intros Hext. apply ascending_ext; [apply sort_uniq_ascending..|].
  intros x. by rewrite !elem_of_sort_uniq.
Qed.

End ascending_lists.

Lemma sort_uniq_fst_sort_uniq {A B} `{CmpLaws A, CmpLaws B} (l : list (A * B)) :
  sort_uniq (sort_uniq l).*1 = sort_uniq l.*1.
Proof.
  apply sort_uniq_ext. intros x. rewrite !list_elem_of_fmap.
  by setoid_rewrite elem_of_sort_uniq.
Qed.

Lemma sort_uniq_snd_sort_uniq {A B} `{CmpLaws A, CmpLaws B} (l : list (A * B)) :
  sort_uniq (sort_uniq l).*2 = sort_uniq l.*2.
Proof.
  apply sort_uniq_ext. intros x. rewrite !list_elem_of_fmap.
  by setoid_rewrite elem_of_sort_uniq.
Qed.

Lemma zip_fmap_same {A B} (f : A → B) (l : list A) :
  zip l (f <$> l) = (λ x, (x, f x)) <$> l.
Proof. induction l as [|x l IH]; [done|]. cbn. f_equal. exact IH. Qed.

Lemma cell_at_tabulate {V} (idx : list Z) (cols : list (string * string))
    (f : Z → string * string → V) (d : Z) (c : string * string) :
  d ∈ idx → c ∈ cols → cell_at (data.tabulate idx cols f) d c = Some (f d c).
Proof.
  intros [i Hi]%get_loc_elem_of [j Hj]%get_loc_elem_of.
  unfold cell_at, data.tabulate. simpl. rewrite Hi, Hj. simpl.
  apply get_loc_Some in Hi, Hj.
  rewrite list_lookup_fmap, Hi. simpl. by rewrite list_lookup_fmap, Hj.
Qed.

Lemma cell_at_tabulate_None {V} (idx : list Z) (cols : list (string * string))
    (f : Z → string * string → V) (d : Z) (c : string * string) :
  d ∉ idx ∨ c ∉ cols → cell_at (data.tabulate idx cols f) d c = None.
Proof.
  unfold cell_at, data.tabulate. simpl. intros [Hd|Hc].
  - apply get_loc_None in Hd. by rewrite Hd.
  - apply get_loc_None in Hc. rewrite Hc. by destruct (get_loc d idx).
Qed.

Section load_cases_table.
Import data.
Variable state2initial : gmap string string.

Lemma keyed_elem_of (by_ : string) (df : list Row) (d : Z) (k : string) :
  (d, k) ∈ (keyed by_ df).*1 ↔ ∃ r, r ∈ df ∧ date r = d ∧ get_by by_ r = Some k.
Proof.
  unfold keyed. rewrite list_elem_of_fmap. split.
  - intros [[k' r] [Hk (r' & Hr' & Hkr)%list_elem_of_omap]].
    simpl in Hk. subst k'. exists r'. split; [done|].
    destruct (get_by by_ r') as [k'|]; simplify_eq/=. done.
  - intros (r & Hr & <- & Hk). exists ((date r, k), r). split; [done|].
    apply list_elem_of_omap. exists r. split; [done|]. by rewrite Hk.
Qed.

Lemma group_rows_of (by_ : string) (df : list Row) (d : Z) (k : string) :
  group by_ df (d, k) = rows_of by_ df d k.
Proof.
  unfold group, rows_of, keyed. induction df as [|r df IH]; [done|].
  rewrite (filter_cons (λ r, date r = d ∧ get_by by_ r = Some k)). cbn [omap list_omap].
  destruct (get_by by_ r) as [k'|] eqn:Hk; cbn [mbind option_bind].
  - rewrite filter_cons. cbn [fst].
    destruct (decide (cmp_eqb (date r, k') (d, k) = true)) as [E|E].
    + apply cmp_eqb_true in E. injection E as <- <-.
      rewrite decide_True by done. rewrite fmap_cons. cbn [snd]. f_equal. exact IH.
    + rewrite decide_False; [exact IH|]. intros [<- [= <-]]. by rewrite cmp_eqb_refl in E.
  - rewrite decide_False; [exact IH|]. by intros [_ ?].
Qed.


Lemma rows_of_nil (by_ : string) (df : list Row) (d : Z) (k : string) :
  (d, k) ∉ (keyed by_ df).*1 → rows_of by_ df d k = [].
Proof.
  intros Hk. apply elem_of_nil_inv. intros r [[Hd Hr] Hin]%list_elem_of_filter.
  apply Hk, keyed_elem_of. eauto.
Qed.

Lemma groupby_sum_keys (by_ : string) (df : list Row) :
  (groupby_sum by_ df).*1 = sort_uniq (keyed by_ df).*1.
Proof. unfold groupby_sum. rewrite <- list_fmap_compose. apply list_fmap_id. Qed.

Lemma groupby_sum_value (by_ : string) (df : list Row) (d : Z) (c : string * string) :
  default 0 (measure_of c.2 <$> lookup_label (d, c.1) (groupby_sum by_ df))
  = table_value by_ df d c.
Proof.
  unfold groupby_sum, table_value, measure_of.
  destruct (decide ((d, c.1) ∈ sort_uniq (keyed by_ df).*1)) as [Hin|Hout].
  - rewrite (lookup_label_fmap _ _ _ Hin). simpl. rewrite group_rows_of.
    by destruct (String.eqb c.2 "newCases").
  - rewrite (lookup_label_fmap_None _ _ _ Hout). simpl.
    rewrite elem_of_sort_uniq in Hout. rewrite (rows_of_nil _ _ _ _ Hout).
    by destruct (String.eqb c.2 "newCases").
Qed.

Lemma mapM_id_Some {A} (l : list A) : mapM id (Some <$> l) = Some l.
Proof. by apply mapM_fmap_Some. Qed.

Lemma mapM_id_fmap_Some {A B} (f : A → B) (l : list A) :
  mapM id ((λ x, Some (f x)) <$> l) = Some (f <$> l).
Proof. induction l as [|x l IH]; [done|]. cbn. cbn in IH. by rewrite IH. Qed.

Lemma astype_int_fillna (v : Z) (t : Wide (option Z)) :
  astype_int (fillna v t)
  = Ok (mkWide (w_index t) (w_columns t) ((λ r : list (option Z), default v <$> r) <$> w_data t)).
Proof.
  unfold astype_int, fillna. cbn [w_index w_columns w_data].
  assert (mapM (mapM id) ((λ r : list (option Z), (λ x, Some (default v x)) <$> r) <$> w_data t)
          = Some ((λ r : list (option Z), default v <$> r) <$> w_data t)) as ->; [|done].
  induction (w_data t) as [|r d IH]; [done|].
  cbn. cbn in IH. rewrite IH.
  pose proof (mapM_id_fmap_Some (default v) r) as Hr. cbn in Hr. by rewrite Hr.
Qed.

(** The chain of [load_cases] after the frame is built. *)
Lemma pivot_eq (by_ : string) (df : list Row) :
  astype_int (fillna 0 (swaplevel (sort_index (data.unstack (groupby_sum by_ df)))))
  = Ok (tabulate (table_dates by_ df) (table_columns by_ df) (table_value by_ df)).
Proof.
  rewrite astype_int_fillna. f_equal.
  unfold data.unstack. rewrite groupby_sum_keys.
  rewrite sort_uniq_fst_sort_uniq, sort_uniq_snd_sort_uniq.
  fold (table_dates by_ df). fold (table_regions by_ df).
  set (cols := _ ++ _).
  unfold sort_index. cbn [w_index w_data w_columns].
  rewrite zip_fmap_same.
  rewrite sort_rows_id.
  2:{ rewrite <- list_fmap_compose. simpl. rewrite list_fmap_id. apply sort_uniq_ascending. }
  unfold swaplevel, tabulate. cbn [w_index w_data w_columns].
  rewrite <- !list_fmap_compose.
  assert (Hcols : (λ c : string * string, (c.2, c.1)) <$> cols = table_columns by_ df).
  { unfold cols, table_columns. rewrite fmap_app, <- !list_fmap_compose. done. }
  f_equal.
  - apply list_fmap_id.
  - exact Hcols.
  - apply list_fmap_ext. intros _ d _. cbn.
    rewrite <- Hcols, <- !list_fmap_compose.
    apply list_fmap_ext. intros _ c _. cbn.
    apply (groupby_sum_value by_ df d (c.2, c.1)).
Qed.

(** What a valid call does: one fetch, and the table of the frame. *)
Lemma load_cases_run (w : World) (by_ source : string) (log : list string) :
  source ∈ ["ms"; "wcota"; "fiocruz"] → by_ ∈ ["state"; "city"] →
  ¬ (by_ = "city" ∧ source = "ms") →
  load_cases state2initial w by_ source log
  = (Ok (tabulate (table_dates by_ (source_frame state2initial w by_ source))
                  (table_columns by_ (source_frame state2initial w by_ source))
                  (table_value by_ (source_frame state2initial w by_ source))),
     log ++ [source_url source]).
Proof.
  intros Hs Hb Hnot. rewrite <- pivot_eq.
  repeat (apply elem_of_cons in Hs as [->|Hs]); [| | |by apply elem_of_nil in Hs];
    (repeat (apply elem_of_cons in Hb as [->|Hb]); [| |by apply elem_of_nil in Hb]);
    try (by destruct Hnot);
    reflexivity.
Qed.

Lemma table_dates_elem_of (by_ : string) (df : list Row) (d : Z) :
  d ∈ table_dates by_ df ↔ ∃ r k, r ∈ df ∧ date r = d ∧ get_by by_ r = Some k.
Proof.
  unfold table_dates. rewrite elem_of_sort_uniq, list_elem_of_fmap. split.
  - intros [[d' k] [-> Hk]]. apply keyed_elem_of in Hk as (r & ? & ? & ?). eauto.
  - intros (r & k & Hr & Hd & Hk). exists (d, k). split; [done|].
    apply keyed_elem_of. eauto.
Qed.

Lemma table_regions_elem_of (by_ : string) (df : list Row) (k : string) :
  k ∈ table_regions by_ df ↔ ∃ r, r ∈ df ∧ get_by by_ r = Some k.
Proof.
  unfold table_regions. rewrite elem_of_sort_uniq, list_elem_of_fmap. split.
  - intros [[d k'] [-> Hk]]. apply keyed_elem_of in Hk as (r & ? & ? & ?). eauto.
  - intros (r & Hr & Hk). exists (date r, k). split; [done|].
    apply keyed_elem_of. eauto.
Qed.

(** C1, as the code has it: the outer level of the columns is the region
    and the inner level the measure.  A valid call fetches its one file and
    returns a table whose dates ascend, whose columns are the regions under
    [newCases] and then under [totalCases], and which holds an integer in
    every cell. *)
Theorem load_cases_table_shape (w : World) (by_ source : string) (log : list string) :
  source ∈ ["ms"; "wcota"; "fiocruz"] → by_ ∈ ["state"; "city"] →
  ¬ (by_ = "city" ∧ source = "ms") →
  ∃ (t : Wide Z) (regions : list string),
    load_cases state2initial w by_ source log = (Ok t, log ++ [source_url source])
    ∧ ascending (w_index t)
    ∧ ascending regions
    ∧ w_columns t = ((λ r : string, (r, "newCases")) <$> regions)
                    ++ ((λ r : string, (r, "totalCases")) <$> regions)
    ∧ length (w_data t) = length (w_index t)
    ∧ Forall (λ row, length row = length (w_columns t)) (w_data t)
    ∧ (∀ d c, d ∈ w_index t → c ∈ w_columns t → ∃ z : Z, cell_at t d c = Some z)
    ∧ (∀ d, d ∈ w_index t ↔
            ∃ r k, r ∈ source_frame state2initial w by_ source
                   ∧ date r = d ∧ get_by by_ r = Some k)
    ∧ (∀ k, k ∈ regions ↔
            ∃ r, r ∈ source_frame state2initial w by_ source ∧ get_by by_ r = Some k).
Proof.
  intros Hs Hb Hnot.
  set (df := source_frame state2initial w by_ source).
  exists (tabulate (table_dates by_ df) (table_columns by_ df) (table_value by_ df)),
         (table_regions by_ df).
  split_and!.
  - by apply load_cases_run.
  - apply sort_uniq_ascending.
  - apply sort_uniq_ascending.
  - done.
  - simpl. by rewrite length_fmap.
  - simpl. apply Forall_fmap, Forall_forall. intros d _. simpl. by rewrite length_fmap.
  - intros d c Hd Hc. exists (table_value by_ df d c). by apply cell_at_tabulate.
  - apply table_dates_elem_of.
  - apply table_regions_elem_of.
Qed.

End load_cases_table.

Lemma load_cases_table_shape_witness :
  ∃ (t : Wide Z) (regions : list string),
    data.load_cases ∅ (data.mkWorld [data.mkMsRow 18341 (Some "SP") (Some 110) (Some 396);
                           data.mkMsRow 18341 (Some "RJ") (Some 44) (Some 109)] [] [])
      "state" "ms" []
    = (Ok t, [] ++ [data.source_url "ms"])
    ∧ ascending (w_index t)
    ∧ ascending regions
    ∧ w_columns t = ((λ r : string, (r, "newCases")) <$> regions)
                    ++ ((λ r : string, (r, "totalCases")) <$> regions)
    ∧ length (w_data t) = length (w_index t)
    ∧ Forall (λ row, length row = length (w_columns t)) (w_data t)
    ∧ (∀ d c, d ∈ w_index t → c ∈ w_columns t → ∃ z : Z, cell_at t d c = Some z)
    ∧ (∀ d, d ∈ w_index t ↔
            ∃ r k, r ∈ data.source_frame ∅ (data.mkWorld [data.mkMsRow 18341 (Some "SP") (Some 110) (Some 396);
                           data.mkMsRow 18341 (Some "RJ") (Some 44) (Some 109)] [] []) "state" "ms"
                   ∧ data.date r = d ∧ data.get_by "state" r = Some k)
    ∧ (∀ k, k ∈ regions ↔
            ∃ r, r ∈ data.source_frame ∅ (data.mkWorld [data.mkMsRow 18341 (Some "SP") (Some 110) (Some 396);
                           data.mkMsRow 18341 (Some "RJ") (Some 44) (Some 109)] [] []) "state" "ms"
                 ∧ data.get_by "state" r = Some k).
Proof.
  apply (load_cases_table_shape ∅
           (data.mkWorld [data.mkMsRow 18341 (Some "SP") (Some 110) (Some 396);
                          data.mkMsRow 18341 (Some "RJ") (Some 44) (Some 109)] [] [])
           "state" "ms" []).
  - apply elem_of_cons. left. reflexivity.
  - apply elem_of_cons. left. reflexivity.
  - intros [Hcity _]. discriminate Hcity.
Defined.

(** C1 as stated fails: the outer level of the column labels holds the
    regions, as in [cases_state['SP']['newCases']['2020-03-20']]. *)
Lemma load_cases_outer_level_is_region :
  ∃ t : Wide Z,
    data.load_cases ∅
      (data.mkWorld [data.mkMsRow 18341 (Some "SP") (Some 110) (Some 396)] [] [])
      "state" "ms" []
    = (Ok t, [data.COVID_SAUDE_URL])
    ∧ w_columns t = [("SP", "newCases"); ("SP", "totalCases")]
    ∧ cell_at t 18341 ("SP", "newCases") = Some 110
    ∧ ¬ (∀ c, c ∈ w_columns t → c.1 = "newCases" ∨ c.1 = "totalCases").
Proof.
  eexists. split; [reflexivity|]. split; [reflexivity|]. split; [reflexivity|].
  intros Hall. destruct (Hall ("SP", "newCases")) as [E|E]; [left|discriminate E..].
Qed.

(** ** covid19/data.py: the running total of the fiocruz source *)

Lemma filter_ext_in {A} (P Q : A → Prop) `{∀ x, Decision (P x), ∀ x, Decision (Q x)}
    (l : list A) :
  (∀ x, x ∈ l → P x ↔ Q x) → filter P l = filter Q l.
Proof.
  induction l as [|x l IH]; intros Hext; [done|].
  rewrite !filter_cons.
  assert (filter P l = filter Q l) as -> by (apply IH; intros y Hy; apply Hext; by right).
  destruct (decide (P x)) as [HP|HP], (decide (Q x)) as [HQ|HQ]; try done.
  - destruct HQ. apply Hext; [left|done].
  - destruct HP. apply Hext; [left|done].
Qed.

Lemma sum_skipna_cons (x : option Z) (l : list (option Z)) :
  sum_skipna (x :: l) = default 0 x + sum_skipna l.
Proof. reflexivity. Qed.

Lemma sum_skipna_app (l1 l2 : list (option Z)) :
  sum_skipna (l1 ++ l2) = sum_skipna l1 + sum_skipna l2.
Proof. induction l1 as [|x l1 IH]; simpl; [done|]. rewrite IH. lia. Qed.

Section fiocruz_totals.
Import data.
Variable state2initial : gmap string string.

Lemma get_by_set_totalCases (by_ : string) (v : option Z) (r : Row) :
  get_by by_ (set_totalCases v r) = get_by by_ r.
Proof. unfold get_by. by repeat case_match. Qed.

Lemma length_groupby_cumsum (by_ : string) (acc : gmap string Z) (df : list Row) :
  length (groupby_cumsum by_ acc df) = length df.
Proof.
  revert acc. induction df as [|r df IH]; intros acc; simpl; [done|].
  by repeat case_match; simpl; rewrite IH.
Qed.

Lemma groupby_cumsum_lookup (by_ : string) (df : list Row) :
  ∀ (acc : gmap string Z) (i : nat) (r : Row) (k : string) (n : Z),
    df !! i = Some r → get_by by_ r = Some k → newCases r = Some n →
    groupby_cumsum by_ acc df !! i
    = Some (Some (default 0 (acc !! k)
                  + sum_skipna (newCases <$> filter (λ r', get_by by_ r' = Some k)
                                               (take (S i) df)))).
Proof.
  induction df as [|r0 df IH]; intros acc i r k n Hi Hk Hn; [done|].
  destruct i as [|i].
  - injection Hi as ->. simpl. rewrite Hk, Hn. simpl.
    rewrite take_0, filter_cons, decide_True by done. simpl. rewrite Hn. simpl.
    apply (f_equal (λ x, Some (Some x))). lia.
  - simpl in Hi. cbn [take]. rewrite filter_cons.
    simpl. destruct (get_by by_ r0) as [k0|] eqn:Hk0, (newCases r0) as [n0|] eqn:Hn0; simpl.
    + rewrite (IH _ _ _ _ _ Hi Hk Hn). apply (f_equal (λ x, Some (Some x))).
      destruct (decide (Some k0 = Some k)) as [[= ->]|Hne].
      * rewrite lookup_insert_eq. simpl. rewrite Hn0. simpl. symmetry. apply Z.add_assoc.
      * rewrite lookup_insert_ne by congruence. done.
    + rewrite (IH _ _ _ _ _ Hi Hk Hn). apply (f_equal (λ x, Some (Some x))).
      destruct (decide (Some k0 = Some k)); [|done]. simpl. by rewrite Hn0.
    + rewrite (IH _ _ _ _ _ Hi Hk Hn). apply (f_equal (λ x, Some (Some x))).
      try rewrite decide_False by done; done.
    + rewrite (IH _ _ _ _ _ Hi Hk Hn). apply (f_equal (λ x, Some (Some x))).
      try rewrite decide_False by done; done.
Qed.

Lemma cumulative_mono (by_ : string) (df : list Row) (k : string) (d1 d2 : Z) :
  (∀ r, r ∈ df → ∃ n, newCases r = Some n ∧ 0 ≤ n) → d1 ≤ d2 →
  cumulative by_ df k d1 ≤ cumulative by_ df k d2.
Proof.
  intros Hpos Hd. unfold cumulative. induction df as [|r df IH]; [done|].
  assert (IH' := IH (λ r' Hr', Hpos r' (list_elem_of_further _ _ _ Hr'))).
  destruct (Hpos r) as (n & Hn & Hn0); [left|].
  rewrite !filter_cons.
  destruct (decide (get_by by_ r = Some k ∧ date r ≤ d1)) as [[Hk H1]|H1].
  - rewrite decide_True by (split; [done|lia]).
    rewrite !fmap_cons, !sum_skipna_cons. lia.
  - destruct (decide (get_by by_ r = Some k ∧ date r ≤ d2)); [|done].
    rewrite fmap_cons, sum_skipna_cons, Hn. simpl. lia.
Qed.

End fiocruz_totals.

Lemma filter_unique {A} (P : A → Prop) `{∀ x, Decision (P x)} (l : list A) :
  ∀ (i : nat) (x : A),
    l !! i = Some x → P x → (∀ j y, l !! j = Some y → P y → j = i) → filter P l = [x].
Proof.
  induction l as [|x0 l IH]; intros i x Hi HP Huniq; [done|].
  rewrite filter_cons. destruct i as [|i].
  - injection Hi as ->. rewrite decide_True by done. f_equal.
    apply elem_of_nil_inv. intros y [HPy [j Hj]%list_elem_of_lookup]%list_elem_of_filter.
    by specialize (Huniq (S j) y Hj HPy).
  - rewrite decide_False.
    + apply (IH i); [done..|]. intros j y Hj HPy.
      specialize (Huniq (S j) y Hj HPy). lia.
    + intros HP0. by specialize (Huniq O x0 eq_refl HP0).
Qed.

Section fiocruz_table.
Import data.
Variable state2initial : gmap string string.

Lemma prefix_cumulative (by_ : string) (df : list Row) (i : nat) (r : Row) (k : string) :
  chronological by_ df → df !! i = Some r → get_by by_ r = Some k →
  filter (λ r', get_by by_ r' = Some k) (take (S i) df)
  = filter (λ r', get_by by_ r' = Some k ∧ date r' ≤ date r) df.
Proof.
  intros Hchr Hi Hk. rewrite <- (take_drop (S i) df) at 2. rewrite filter_app.
  assert (filter (λ r', get_by by_ r' = Some k ∧ date r' ≤ date r) (drop (S i) df) = [])
    as ->.
  { apply elem_of_nil_inv.
    intros y [[Hky Hdy] [j Hj]%list_elem_of_lookup]%list_elem_of_filter.
    rewrite lookup_drop in Hj.
    assert (date r < date y) by (eapply (Hchr i (S i + j)%nat); eauto; lia). lia. }
  rewrite app_nil_r. apply filter_ext_in.
  intros y [j Hj]%list_elem_of_lookup. split; [|by intros [? _]].
  intros Hky. split; [done|].
  apply lookup_take_Some in Hj as [Hj Hlt].
  destruct (decide (j = i)) as [->|Hne].
  - rewrite Hi in Hj. injection Hj as ->. lia.
  - assert (date y < date r) by (eapply (Hchr j i); eauto; lia). lia.
Qed.

Lemma fiocruz_frame_lookup (w : World) (by_ : string) (i : nat) (r : Row) (k : string) (n : Z) :
  chronological by_ (fiocruz_rows state2initial w by_) →
  fiocruz_rows state2initial w by_ !! i = Some r →
  get_by by_ r = Some k → newCases r = Some n →
  fiocruz_frame state2initial w by_ !! i
  = Some (set_totalCases
            (Some (cumulative by_ (fiocruz_rows state2initial w by_) k (date r))) r).
Proof.
  intros Hchr Hi Hk Hn. unfold fiocruz_frame. cbn zeta.
  rewrite lookup_zip_with, (groupby_cumsum_lookup _ _ _ _ _ _ _ Hi Hk Hn), Hi. simpl.
  rewrite (prefix_cumulative _ _ _ _ _ Hchr Hi Hk). done.
Qed.

Lemma fiocruz_frame_inv (w : World) (by_ : string) (j : nat) (y : Row) :
  fiocruz_frame state2initial w by_ !! j = Some y →
  ∃ v r, fiocruz_rows state2initial w by_ !! j = Some r ∧ y = set_totalCases v r.
Proof.
  unfold fiocruz_frame. cbn zeta. intros (v & r & -> & _ & Hr)%lookup_zip_with_Some. eauto.
Qed.

(** The cell of a region on a date it has a row for. *)
Lemma fiocruz_total_value (w : World) (by_ : string) (r : Row) (k : string) :
  (∀ r, r ∈ fiocruz_rows state2initial w by_ → ∃ n, newCases r = Some n ∧ 0 ≤ n) →
  chronological by_ (fiocruz_rows state2initial w by_) →
  r ∈ fiocruz_rows state2initial w by_ → get_by by_ r = Some k →
  date r ∈ table_dates by_ (fiocruz_frame state2initial w by_)
  ∧ (k, "totalCases") ∈ table_columns by_ (fiocruz_frame state2initial w by_)
  ∧ table_value by_ (fiocruz_frame state2initial w by_) (date r) (k, "totalCases")
    = cumulative by_ (fiocruz_rows state2initial w by_) k (date r).
Proof.
  intros Hpos Hchr Hr Hk.
  destruct (Hpos r Hr) as (n & Hn & _).
  apply list_elem_of_lookup in Hr as [i Hi].
  pose proof (fiocruz_frame_lookup w by_ i r k n Hchr Hi Hk Hn) as Hfi.
  set (y := set_totalCases (Some (cumulative by_ (fiocruz_rows state2initial w by_) k (date r))) r) in *.
  assert (Hy : y ∈ fiocruz_frame state2initial w by_) by (by eapply list_elem_of_lookup_2).
  assert (Hky : get_by by_ y = Some k) by (unfold y; by rewrite get_by_set_totalCases).
  split_and!.
  - apply table_dates_elem_of. exists y, k. done.
  - unfold table_columns. apply elem_of_app. right. apply list_elem_of_fmap.
    exists k. split; [done|]. apply table_regions_elem_of. eauto.
  - unfold table_value, rows_of. cbn [fst snd].
    assert (String.eqb "totalCases" "newCases" = false) as -> by reflexivity.
    rewrite (filter_unique _ _ i y Hfi).
    + unfold y. cbn. lia.
    + done.
    + intros j y' Hj [Hd' Hk'].
      apply fiocruz_frame_inv in Hj as (v & r' & Hr' & ->).
      rewrite get_by_set_totalCases in Hk'. cbn in Hd'.
      destruct (Nat.lt_trichotomy j i) as [Hlt|[->|Hgt]]; [|done|].
      * assert (date r' < date r) by (by eapply (Hchr j i)). unfold y in Hd'. cbn in Hd'. lia.
      * assert (date r < date r') by (by eapply (Hchr i j)). unfold y in Hd'. cbn in Hd'. lia.
Qed.

(** C5, as the code has it: where every count of new cases is present and
    not negative and the rows of each region stand in the file in strictly
    increasing order of date, the [totalCases] of a region on a date it has
    a row for is the sum of its new cases up to that date, and so does not
    decrease from one such date to a later one. *)
Theorem fiocruz_totalCases_monotone (w : World) (by_ : string) (log : list string) :
  by_ ∈ ["state"; "city"] →
  (∀ r, r ∈ fiocruz_rows state2initial w by_ → ∃ n, newCases r = Some n ∧ 0 ≤ n) →
  chronological by_ (fiocruz_rows state2initial w by_) →
  ∃ t : Wide Z,
    load_cases state2initial w by_ "fiocruz" log = (Ok t, log ++ [FIOCRUZ_URL])
    ∧ ∀ (r1 r2 : Row) (k : string),
        r1 ∈ fiocruz_rows state2initial w by_ → r2 ∈ fiocruz_rows state2initial w by_ →
        get_by by_ r1 = Some k → get_by by_ r2 = Some k → date r1 ≤ date r2 →
        ∃ v1 v2 : Z,
          cell_at t (date r1) (k, "totalCases") = Some v1
          ∧ cell_at t (date r2) (k, "totalCases") = Some v2
          ∧ v1 = cumulative by_ (fiocruz_rows state2initial w by_) k (date r1)
          ∧ v2 = cumulative by_ (fiocruz_rows state2initial w by_) k (date r2)
          ∧ v1 ≤ v2.
Proof.
  intros Hb Hpos Hchr.
  eexists. split.
  { apply load_cases_run; [|done|by intros [_ ?]].
    do 2 apply list_elem_of_further. left. }
  assert (source_frame state2initial w by_ "fiocruz" = fiocruz_frame state2initial w by_)
    as -> by reflexivity.
  intros r1 r2 k Hr1 Hr2 Hk1 Hk2 Hd.
  destruct (fiocruz_total_value w by_ r1 k Hpos Hchr Hr1 Hk1) as (Hd1 & Hc1 & Hv1).
  destruct (fiocruz_total_value w by_ r2 k Hpos Hchr Hr2 Hk2) as (Hd2 & Hc2 & Hv2).
  exists (cumulative by_ (fiocruz_rows state2initial w by_) k (date r1)),
         (cumulative by_ (fiocruz_rows state2initial w by_) k (date r2)).
  split_and!; [| |done|done|].
  - rewrite cell_at_tabulate by done. by rewrite Hv1.
  - rewrite cell_at_tabulate by done. by rewrite Hv2.
  - by apply cumulative_mono.
Qed.

End fiocruz_table.

Lemma fiocruz_totalCases_monotone_witness :
  ∃ t : Wide Z,
    data.load_cases sample_state2initial sample_fiocruz "state" "fiocruz" []
    = (Ok t, [] ++ [data.FIOCRUZ_URL])
    ∧ ∀ (r1 r2 : data.Row) (k : string),
        r1 ∈ data.fiocruz_rows sample_state2initial sample_fiocruz "state" →
        r2 ∈ data.fiocruz_rows sample_state2initial sample_fiocruz "state" →
        data.get_by "state" r1 = Some k → data.get_by "state" r2 = Some k →
        data.date r1 ≤ data.date r2 →
        ∃ v1 v2 : Z,
          cell_at t (data.date r1) (k, "totalCases") = Some v1
          ∧ cell_at t (data.date r2) (k, "totalCases") = Some v2
          ∧ v1 = data.cumulative "state"
                   (data.fiocruz_rows sample_state2initial sample_fiocruz "state") k (data.date r1)
          ∧ v2 = data.cumulative "state"
                   (data.fiocruz_rows sample_state2initial sample_fiocruz "state") k (data.date r2)
          ∧ v1 ≤ v2.
Proof.
  apply (fiocruz_totalCases_monotone sample_state2initial sample_fiocruz "state" []).
  - apply elem_of_cons. left. reflexivity.
  - intros r Hr. vm_compute in Hr.
    repeat (apply elem_of_cons in Hr as [->|Hr]); [..|by apply elem_of_nil in Hr];
      eexists; (split; [reflexivity|lia]).
  - intros i j ri rj k Hi Hj Hki Hkj Hij. vm_compute in Hi, Hj.
    destruct i as [|[|[|i]]], j as [|[|[|j]]]; try lia; try discriminate;
      injection Hi as <-; injection Hj as <-; vm_compute in Hki, Hkj |- *;
      congruence.
Defined.

(** C5 as stated fails: on a date a region has no row for, [fillna(0)]
    gives it the total 0, below the total of the date before. *)
Lemma fiocruz_totalCases_drops_on_gap :
  ∃ t : Wide Z,
    data.load_cases sample_state2initial sample_fiocruz "state" "fiocruz" []
    = (Ok t, [data.FIOCRUZ_URL])
    ∧ cell_at t 1 ("SP", "totalCases") = Some 3
    ∧ cell_at t 2 ("SP", "totalCases") = Some 0
    ∧ cell_at t 3 ("SP", "totalCases") = Some 5
    ∧ ¬ (∀ d1 d2 v1 v2, d1 ≤ d2 →
           cell_at t d1 ("SP", "totalCases") = Some v1 →
           cell_at t d2 ("SP", "totalCases") = Some v2 → v1 ≤ v2).
Proof.
  eexists. split; [reflexivity|]. split; [reflexivity|].
  split; [reflexivity|]. split; [reflexivity|].
  intros Hmono. specialize (Hmono 1 2 3 0). 
  assert (3 ≤ 0) by (apply Hmono; [lia|reflexivity..]). lia.
Qed.

(** The two conditions on the file are needed as well: a negative count,
    and rows that are not in the order of time. *)
Example fiocruz_totalCases_negative_count :
  fst (data.load_cases sample_state2initial
         (data.mkWorld [] []
            [data.mkFiocruzRow 1 (Some "#BR: Acre") (Some 5);
             data.mkFiocruzRow 2 (Some "#BR: Acre") (Some (-2))])
         "state" "fiocruz" [])
  = Ok (mkWide [1; 2] [("AC", "newCases"); ("AC", "totalCases")] [[5; 5]; [-2; 3]]).
Proof. reflexivity. Qed.

Example fiocruz_totalCases_file_order :
  fst (data.load_cases sample_state2initial
         (data.mkWorld [] []
            [data.mkFiocruzRow 2 (Some "#BR: Acre") (Some 5);
             data.mkFiocruzRow 1 (Some "#BR: Acre") (Some 1)])
         "state" "fiocruz" [])
  = Ok (mkWide [1; 2] [("AC", "newCases"); ("AC", "totalCases")] [[1; 6]; [5; 5]]).
Proof. reflexivity. Qed.

Example fiocruz_city_names :
  fst (data.load_cases sample_state2initial sample_fiocruz "city" "fiocruz" [])
  = Ok (mkWide [3] [("Xapuri/AC", "newCases"); ("Xapuri/AC", "totalCases")] [[1; 1]]).
Proof. reflexivity. Qed.

(** ** simulator/pages/utils/viz.py: [compute_mean_and_boundaries] *)

Section compute_mean_and_boundaries.
Import viz.
Variables np_mean np_std : list float → float.

Lemma column_not_ValueError {V} (df : Frame label V) (c msg : string) :
  column df c ≠ Raise (ValueError msg).
Proof. unfold column. by destruct (getitem (columns df) (LStr c)). Qed.

(** The frame the function returns when it returns one. *)
Lemma compute_mean_and_boundaries_Ok (df : DataFrame) (variable : string) (out : Frame label float) :
  compute_mean_and_boundaries np_mean np_std df variable = Ok out →
  ∃ (keys : list scalar) (mean std : list float),
    out = mkFrame (Some "Dias") keys
            [(LStr ((variable +:+ "_") +:+ "mean"), mean);
             (LStr ((variable +:+ "_") +:+ "std"), std);
             (LStr ((variable +:+ "_") +:+ "upper"), zip_with PrimFloat.add mean std);
             (LStr ((variable +:+ "_") +:+ "lower"), zip_with PrimFloat.sub mean std)]
    ∧ length mean = length keys ∧ length std = length keys.
Proof.
  unfold compute_mean_and_boundaries, groupby_agg.
  destruct (bool_decide _); simpl; [|done].
  destruct (grouper df "Dias") as [ks|]; simpl; [|done].
  destruct (column df variable) as [vs|]; simpl; [|done].
  destruct (mapM to_float vs) as [fs|]; simpl; [|done].
  intros [= <-]. eexists _, _, _. split; [reflexivity|].
  by rewrite !length_fmap.
Qed.

(** C6: on every row of the output, upper is mean + std and lower is
    mean - std, in float64 arithmetic; the four columns carry the name of
    the variable as a prefix. *)
Theorem compute_mean_and_boundaries_bounds (df : DataFrame) (variable : string)
    (out : Frame label float) :
  compute_mean_and_boundaries np_mean np_std df variable = Ok out →
  ∃ mean std upper lower : list float,
    columns out = [(LStr ((variable +:+ "_") +:+ "mean"), mean);
                   (LStr ((variable +:+ "_") +:+ "std"), std);
                   (LStr ((variable +:+ "_") +:+ "upper"), upper);
                   (LStr ((variable +:+ "_") +:+ "lower"), lower)]
    ∧ length mean = length (index out) ∧ length std = length (index out)
    ∧ length upper = length (index out) ∧ length lower = length (index out)
    ∧ (∀ i : nat, (i < length (index out))%nat →
         ∃ m s : float,
           mean !! i = Some m ∧ std !! i = Some s
           ∧ upper !! i = Some (m + s)%float ∧ lower !! i = Some (m - s)%float)
    ∧ (∀ c, c ∈ (columns out).*1 → ∃ sfx, c = LStr ((variable +:+ "_") +:+ sfx)).
Proof.
  intros (keys & mean & std & -> & Hm & Hs)%compute_mean_and_boundaries_Ok.
  exists mean, std, (zip_with PrimFloat.add mean std), (zip_with PrimFloat.sub mean std).
  simpl. split_and!; try done.
  - rewrite length_zip_with. lia.
  - rewrite length_zip_with. lia.
  - intros i Hi.
    destruct (lookup_lt_is_Some_2 mean i) as [m Hmi]; [lia|].
    destruct (lookup_lt_is_Some_2 std i) as [s Hsi]; [lia|].
    exists m, s. rewrite !lookup_zip_with, Hmi, Hsi. done.
  - intros c Hc. repeat (apply elem_of_cons in Hc as [->|Hc]); eauto.
    by apply elem_of_nil in Hc.
Qed.

(** The errors of [groupby]: a missing key, or one of its two refusals. *)
Lemma grouper_Raise (df : DataFrame) (key : string) (e : exn) :
  grouper df key = Raise e →
  e = KeyError key
  ∨ e = ValueError ("'" +:+ key
                    +:+ "' is both an index level and a column label, which is ambiguous.")
  ∨ e = ValueError ("Grouper for '" +:+ key +:+ "' not 1-dimensional").
Proof.
  unfold grouper.
  destruct (filter _ (columns df)) as [|c [|c' others]];
    destruct (bool_decide (index_name df = Some key)); naive_solver.
Qed.

Lemma filter_label_absent {V} (cols : list (label * list V)) (k : label) :
  k ∉ cols.*1 → filter (λ c : label * list V, c.1 = k) cols = [].
Proof.
  induction cols as [|[c v] cols IH]; [done|]. cbn [fmap list_fmap fst].
  intros Hk. apply not_elem_of_cons in Hk as [Hne Hk].
  rewrite filter_cons_False by (cbn; congruence). by apply IH.
Qed.

Lemma filter_label_NoDup {V} (cols : list (label * list V)) (k : label) (v : list V) :
  NoDup cols.*1 → getitem cols k = Some v →
  filter (λ c : label * list V, c.1 = k) cols = [(k, v)].
Proof.
  induction cols as [|[c v'] cols IH]; [done|]. cbn [fmap list_fmap fst getitem].
  intros [Hc Hnd]%NoDup_cons. destruct (decide (k = c)) as [->|Hne].
  - intros [= ->]. rewrite filter_cons_True by done. f_equal. by apply filter_label_absent.
  - intros Hget. rewrite filter_cons_False by (cbn; congruence). by apply IH.
Qed.

(** With distinct labels and an index of another name, [groupby] groups
    by the column. *)
Lemma grouper_column (df : DataFrame) (key : string) (ks : list scalar) :
  NoDup (columns df).*1 → index_name df ≠ Some key →
  column df key = Ok ks → grouper df key = Ok ks.
Proof.
  intros Hnd Hname. unfold column, grouper.
  destruct (getitem (columns df) (LStr key)) as [v|] eqn:Hget; [|done].
  intros [= ->]. rewrite (filter_label_NoDup _ _ _ Hnd Hget).
  by rewrite bool_decide_eq_false_2.
Qed.

Lemma long_labels_NoDup (name : string) :
  name ≠ "iteration" → name ≠ "Dias" →
  NoDup [LStr "iteration"; LStr "Dias"; LStr name].
Proof.
  intros H1 H2. repeat apply NoDup_cons_2; try apply NoDup_nil_2;
    rewrite ?elem_of_cons, ?elem_of_nil; naive_solver.
Qed.

(** C8: the function raises the ValueError that names the variable exactly
    when the variable is not a column of the frame; with the variable among
    the columns this check does not raise, whatever the steps after it
    do. *)
Theorem compute_mean_and_boundaries_raises_iff (df : DataFrame) (variable : string) :
  (LStr variable ∉ (columns df).*1 →
     compute_mean_and_boundaries np_mean np_std df variable
     = Raise (ValueError ("No column named " +:+ variable
                          +:+ ". Variable name must refer to a dataframe column")))
  ∧ (LStr variable ∈ (columns df).*1 →
     compute_mean_and_boundaries np_mean np_std df variable
     ≠ Raise (ValueError ("No column named " +:+ variable
                          +:+ ". Variable name must refer to a dataframe column")))
  ∧ (compute_mean_and_boundaries np_mean np_std df variable
     = Raise (ValueError ("No column named " +:+ variable
                          +:+ ". Variable name must refer to a dataframe column"))
     ↔ LStr variable ∉ (columns df).*1).
Proof.
  assert (Hout : LStr variable ∉ (columns df).*1 →
     compute_mean_and_boundaries np_mean np_std df variable
     = Raise (ValueError ("No column named " +:+ variable
                          +:+ ". Variable name must refer to a dataframe column"))).
  { intros Hout. unfold compute_mean_and_boundaries. by rewrite bool_decide_eq_false_2. }
  assert (Hin : LStr variable ∈ (columns df).*1 →
     compute_mean_and_boundaries np_mean np_std df variable
     ≠ Raise (ValueError ("No column named " +:+ variable
                          +:+ ". Variable name must refer to a dataframe column"))).
  { intros Hin. unfold compute_mean_and_boundaries, groupby_agg.
    rewrite bool_decide_eq_true_2 by done. simpl.
    destruct (grouper df "Dias") as [ks|e] eqn:HD; simpl.
    - destruct (column df variable) as [vs|e] eqn:HV; simpl;
        [|intros [= ->]; by apply column_not_ValueError in HV].
      destruct (mapM to_float vs) as [fs|]; simpl; intros [=].
    - apply grouper_Raise in HD as [-> | [-> | ->]]; intros [=]. }
  split_and!; [done..|]. split.
  - intros Hmsg Hin'. by apply (Hin Hin').
  - exact Hout.
Qed.

End compute_mean_and_boundaries.

Lemma compute_mean_and_boundaries_bounds_witness :
  ∃ out : viz.Frame viz.label float,
    viz.compute_mean_and_boundaries sample_mean sample_std sample_long "Exposto" = Ok out
    ∧ ∃ mean std upper lower : list float,
        viz.columns out = [(viz.LStr (("Exposto" +:+ "_") +:+ "mean"), mean);
                           (viz.LStr (("Exposto" +:+ "_") +:+ "std"), std);
                           (viz.LStr (("Exposto" +:+ "_") +:+ "upper"), upper);
                           (viz.LStr (("Exposto" +:+ "_") +:+ "lower"), lower)]
        ∧ length mean = length (viz.index out) ∧ length std = length (viz.index out)
        ∧ length upper = length (viz.index out) ∧ length lower = length (viz.index out)
        ∧ (∀ i : nat, (i < length (viz.index out))%nat →
             ∃ m s : float,
               mean !! i = Some m ∧ std !! i = Some s
               ∧ upper !! i = Some (m + s)%float ∧ lower !! i = Some (m - s)%float)
        ∧ (∀ c, c ∈ (viz.columns out).*1 → ∃ sfx, c = viz.LStr (("Exposto" +:+ "_") +:+ sfx)).
Proof.
  eexists. split; [reflexivity|].
  apply (compute_mean_and_boundaries_bounds sample_mean sample_std sample_long "Exposto").
  reflexivity.
Defined.

Example compute_mean_and_boundaries_sample :
  viz.compute_mean_and_boundaries sample_mean sample_std sample_long "Exposto"
  = Ok (viz.mkFrame (Some "Dias") [viz.SInt 0; viz.SInt 1]
          [(viz.LStr "Exposto_mean", [2; 6]%float);
           (viz.LStr "Exposto_std", [2; 0x1.52a7fa9d2f8eap+1]%float);
           (viz.LStr "Exposto_upper", [4; 0x1.14a9fea74be3ap+3]%float);
           (viz.LStr "Exposto_lower", [0; 0x1.ad580562d0716p+1]%float)]).
Proof. reflexivity. Qed.

Example compute_mean_and_boundaries_missing_column :
  viz.compute_mean_and_boundaries sample_mean sample_std sample_long "Infectado"
  = Raise (ValueError "No column named Infectado. Variable name must refer to a dataframe column").
Proof. reflexivity. Qed.

(** With the variable among the columns the steps after the check can still
    raise, a ValueError of [groupby] among the errors. *)
Example compute_mean_and_boundaries_ambiguous_key :
  viz.compute_mean_and_boundaries sample_mean sample_std
    (viz.mkFrame (Some "Dias") [viz.SInt 0]
       [(viz.LStr "Dias", [viz.SInt 0]); (viz.LStr "Exposto", [viz.SFloat 1])]) "Exposto"
  = Raise (ValueError "'Dias' is both an index level and a column label, which is ambiguous.").
Proof. reflexivity. Qed.

Example compute_mean_and_boundaries_repeated_key :
  viz.compute_mean_and_boundaries sample_mean sample_std
    (viz.mkFrame None [viz.SInt 0]
       [(viz.LStr "Dias", [viz.SInt 0]); (viz.LStr "Dias", [viz.SInt 1]);
        (viz.LStr "Exposto", [viz.SFloat 1])]) "Exposto"
  = Raise (ValueError "Grouper for 'Dias' not 1-dimensional").
Proof. reflexivity. Qed.

(** ** simulator/pages/utils/viz.py: [unstack_iterations_ndarray] *)

Lemma bind_join_fmap {A B} (f : A → list B) (l : list A) : l ≫= f = mjoin (f <$> l).
Proof. induction l as [|x l IH]; [done|]. rewrite bind_cons, fmap_cons, IH. done. Qed.

Section unstack_iterations_ndarray.
Import viz.

Lemma unstack_iterations_ndarray_eq (arr : ndarray) (t_space : list Z) (name : string) :
  length (rows arr) = length t_space →
  unstack_iterations_ndarray arr t_space name
  = Ok (let s := mjoin (chunk arr t_space <$> seq 0 (ncols arr)) in
        mkFrame None (RangeIndex (length s))
          [(LStr "iteration", (s.*1).*1); (LStr "Dias", (s.*1).*2); (LStr name, s.*2)]).
Proof.
  intros Hlen. unfold unstack_iterations_ndarray, DataFrame_of_array.
  rewrite decide_True by done. cbn [mbind result_bind].
  unfold unstack. cbn [columns index]. rewrite bind_join_fmap, <- list_fmap_compose.
  reflexivity.
Qed.

Lemma length_chunk (arr : ndarray) (t_space : list Z) (c : nat) :
  length (rows arr) = length t_space → length (chunk arr t_space c) = length t_space.
Proof. intros Hlen. unfold chunk. rewrite length_zip_with, !length_fmap. lia. Qed.

Lemma length_long (arr : ndarray) (t_space : list Z) :
  length (rows arr) = length t_space →
  length (mjoin (chunk arr t_space <$> seq 0 (ncols arr))) = (ncols arr * length t_space)%nat.
Proof.
  intros Hlen. rewrite length_join, <- list_fmap_compose.
  rewrite (sum_list_fmap_same (length t_space)).
  - rewrite length_seq. lia.
  - apply Forall_forall. intros c _. simpl. by apply length_chunk.
Qed.

Lemma long_lookup (arr : ndarray) (t_space : list Z) (c t : nat) (lbl : Z)
    (row : list float) (x : float) :
  length (rows arr) = length t_space →
  (c < ncols arr)%nat → t_space !! t = Some lbl → rows arr !! t = Some row → row !! c = Some x →
  mjoin (chunk arr t_space <$> seq 0 (ncols arr)) !! (c * length t_space + t)%nat
  = Some ((SInt (Z.of_nat c), SInt lbl), SFloat x).
Proof.
  intros Hlen Hc Ht Hrow Hx.
  apply (join_lookup_Some_same_length' (length t_space)).
  - apply Forall_fmap, Forall_forall. intros c' _. simpl. by apply length_chunk.
  - by eapply lookup_lt_Some.
  - exists (chunk arr t_space c). split.
    + rewrite list_lookup_fmap, lookup_seq_lt by done. done.
    + unfold chunk. rewrite lookup_zip_with, !list_lookup_fmap, Ht, Hrow. simpl.
      by rewrite Hx.
Qed.

(** C3, as the code has it: the rows of the array are the time steps (one
    per label of [t_space]) and its columns the iterations.  The table has
    one row per cell, iteration by iteration; row [c * T + t] holds
    iteration [c], the label of time step [t] and the value [arr[t][c]]. *)
Theorem unstack_iterations_ndarray_long_form (arr : ndarray) (t_space : list Z) (name : string) :
  length (rows arr) = length t_space →
  Forall (λ r, length r = ncols arr) (rows arr) →
  ∃ iteration dias values : list scalar,
    unstack_iterations_ndarray arr t_space name
    = Ok (mkFrame None (RangeIndex (ncols arr * length t_space))
            [(LStr "iteration", iteration); (LStr "Dias", dias); (LStr name, values)])
    ∧ length iteration = (ncols arr * length t_space)%nat
    ∧ length dias = (ncols arr * length t_space)%nat
    ∧ length values = (ncols arr * length t_space)%nat
    ∧ ∀ (c t : nat) (lbl : Z),
        (c < ncols arr)%nat → t_space !! t = Some lbl →
        ∃ (row : list float) (x : float),
          rows arr !! t = Some row ∧ row !! c = Some x
          ∧ iteration !! (c * length t_space + t)%nat = Some (SInt (Z.of_nat c))
          ∧ dias !! (c * length t_space + t)%nat = Some (SInt lbl)
          ∧ values !! (c * length t_space + t)%nat = Some (SFloat x).
Proof.
  intros Hlen Hrect.
  set (s := mjoin (chunk arr t_space <$> seq 0 (ncols arr))).
  exists (s.*1).*1, (s.*1).*2, s.*2. split_and!.
  - rewrite unstack_iterations_ndarray_eq by done. cbn zeta. fold s.
    unfold s at 1. by rewrite length_long.
  - rewrite !length_fmap. by apply length_long.
  - rewrite !length_fmap. by apply length_long.
  - rewrite !length_fmap. by apply length_long.
  - intros c t lbl Hc Ht.
    destruct (lookup_lt_is_Some_2 (rows arr) t) as [row Hrow].
    { rewrite Hlen. by eapply lookup_lt_Some. }
    destruct (lookup_lt_is_Some_2 row c) as [x Hx].
    { rewrite Forall_forall in Hrect. rewrite (Hrect row); [done|].
      by eapply list_elem_of_lookup_2. }
    exists row, x. split; [done|]. split; [done|].
    rewrite !list_lookup_fmap. unfold s.
    rewrite (long_lookup arr t_space c t lbl row x) by done. done.
Qed.

End unstack_iterations_ndarray.

Lemma unstack_iterations_ndarray_long_form_witness :
  ∃ iteration dias values : list viz.scalar,
    viz.unstack_iterations_ndarray sample_E [0; 1] "Exposto"
    = Ok (viz.mkFrame None (viz.RangeIndex (viz.ncols sample_E * length [0; 1]))
            [(viz.LStr "iteration", iteration); (viz.LStr "Dias", dias);
             (viz.LStr "Exposto", values)])
    ∧ length iteration = (viz.ncols sample_E * length [0; 1])%nat
    ∧ length dias = (viz.ncols sample_E * length [0; 1])%nat
    ∧ length values = (viz.ncols sample_E * length [0; 1])%nat
    ∧ ∀ (c t : nat) (lbl : Z),
        (c < viz.ncols sample_E)%nat → [0; 1] !! t = Some lbl →
        ∃ (row : list float) (x : float),
          viz.rows sample_E !! t = Some row ∧ row !! c = Some x
          ∧ iteration !! (c * length [0; 1] + t)%nat = Some (viz.SInt (Z.of_nat c))
          ∧ dias !! (c * length [0; 1] + t)%nat = Some (viz.SInt lbl)
          ∧ values !! (c * length [0; 1] + t)%nat = Some (viz.SFloat x).
Proof.
  apply (unstack_iterations_ndarray_long_form sample_E [0; 1] "Exposto").
  - reflexivity.
  - repeat constructor.
Defined.

(** C3 as stated fails: an array with one row per iteration and one column
    per time step does not fit the index [t_space], and pandas refuses it. *)
Lemma unstack_iterations_ndarray_iteration_rows :
  viz.unstack_iterations_ndarray (viz.mkArray 2 [[10; 20]]%float) [0; 1] "Exposto"
  = Raise (ValueError "Shape of passed values does not match the index").
Proof. reflexivity. Qed.

(** Where the array is square the call succeeds, and reads the rows as
    time steps: the value of "iteration 0" on day 1 is [arr[1][0]]. *)
Example unstack_iterations_ndarray_square :
  viz.unstack_iterations_ndarray (viz.mkArray 2 [[1; 2]; [3; 4]]%float) [0; 1] "Exposto"
  = Ok (viz.mkFrame None (viz.RangeIndex 4)
          [(viz.LStr "iteration", viz.SInt <$> [0; 0; 1; 1]);
           (viz.LStr "Dias", viz.SInt <$> [0; 1; 0; 1]);
           (viz.LStr "Exposto", viz.SFloat <$> [1; 3; 2; 4]%float)]).
Proof. reflexivity. Qed.

Example unstack_iterations_ndarray_sample :
  viz.unstack_iterations_ndarray sample_E [0; 1] "Exposto" = Ok sample_long.
Proof. reflexivity. Qed.

(** ** simulator/pages/utils/viz.py: [_treat_negative_values_to_plot] *)

Section frame_rule.
Import viz.

Lemma keeps_ret {A} (h0 : heap) (a : A) (Q : A → Prop) : Q a → keeps h0 (mret a) Q.
Proof. intros HQ h Hh. split; [done|]. by intros a' [= <-]. Qed.

Lemma keeps_raise {A} (h0 : heap) (e : exn) (Q : A → Prop) : keeps h0 (raise e) Q.
Proof. intros h Hh. split; [done|]. by intros a [=]. Qed.

Lemma keeps_bind {A B} (h0 : heap) (m : St A) (f : A → St B) (Q : A → Prop) (R : B → Prop) :
  keeps h0 m Q → (∀ a, Q a → keeps h0 (f a) R) → keeps h0 (m ≫= f) R.
Proof.
  intros Hm Hf h Hh. unfold mbind, St_bind.
  destruct (Hm h Hh) as [Hh' HQ]. destruct (m h) as [[a|e] h']; simpl in *.
  - by apply (Hf a (HQ a eq_refl)).
  - split; [done|]. by intros b [=].
Qed.

Lemma keeps_weaken {A} (h0 : heap) (m : St A) (Q R : A → Prop) :
  keeps h0 m Q → (∀ a, Q a → R a) → keeps h0 m R.
Proof. intros Hm HQR h Hh. destruct (Hm h Hh) as [? HQ]. split; [done|]. eauto. Qed.

Lemma keeps_deref (h0 : heap) (l : nat) : keeps h0 (deref l) (λ _, True).
Proof. intros h Hh. unfold deref. by destruct (h !! l). Qed.

Lemma keeps_alloc (h0 : heap) (df : DataFrame) :
  keeps h0 (alloc df) (λ l, h0 !! l = None).
Proof.
  intros h Hh. unfold alloc. simpl.
  assert (Hfresh : h !! fresh (dom h) = None).
  { apply not_elem_of_dom. apply is_fresh. }
  assert (Hfresh0 : h0 !! fresh (dom h) = None) by (by eapply lookup_weaken_None).
  split.
  - by apply insert_subseteq_r.
  - by intros l [= <-].
Qed.

Lemma keeps_store (h0 : heap) (l : nat) (df : DataFrame) :
  h0 !! l = None → keeps h0 (store l df) (λ _, True).
Proof. intros Hl h Hh. unfold store. simpl. split; [|done]. by apply insert_subseteq_r. Qed.

Lemma keeps_getitem_columns (h0 : heap) (l : nat) (cols : list label) :
  keeps h0 (getitem_columns l cols) (λ l', h0 !! l' = None).
Proof.
  unfold getitem_columns. eapply keeps_bind; [apply keeps_deref|].
  intros df _. destruct (mapM _ cols); [apply keeps_alloc|apply keeps_raise].
Qed.

Lemma keeps_frame_le (h0 : heap) (l : nat) (bound : Z) :
  keeps h0 (frame_le l bound) (λ l', h0 !! l' = None).
Proof.
  unfold frame_le. eapply keeps_bind; [apply keeps_deref|].
  intros df _. destruct (mapM _ (columns df)); [apply keeps_alloc|apply keeps_raise].
Qed.

Lemma keeps_getitem_mask (h0 : heap) (l m : nat) :
  keeps h0 (getitem_mask l m) (λ l', h0 !! l' = None).
Proof.
  unfold getitem_mask. eapply keeps_bind; [apply keeps_deref|].
  intros df _. eapply keeps_bind; [apply keeps_deref|].
  intros mask _. apply keeps_alloc.
Qed.

Lemma keeps_setitem_columns (h0 : heap) (l : nat) (cols : list label) (v : scalar) :
  h0 !! l = None → keeps h0 (setitem_columns l cols v) (λ _, True).
Proof.
  intros Hl. unfold setitem_columns. eapply keeps_bind; [apply keeps_deref|].
  intros df _. by apply keeps_store.
Qed.

Variable is_numeric_dtype : label → bool.

Lemma keeps_treat (h0 : heap) (df : nat) :
  keeps h0 (_treat_negative_values_to_plot is_numeric_dtype df) (λ l, l = df).
Proof.
  unfold _treat_negative_values_to_plot.
  eapply keeps_bind; [apply keeps_deref|]. intros d _.
  eapply keeps_bind; [apply keeps_getitem_columns|]. intros sel _.
  eapply keeps_bind; [apply keeps_frame_le|]. intros mask _.
  eapply keeps_bind; [apply keeps_getitem_mask|]. intros tmp Htmp.
  eapply keeps_bind; [by apply keeps_setitem_columns|]. intros _ _.
  by apply keeps_ret.
Qed.

(** C4: the call changes no frame that exists when it is made, the frame
    it is given among them; its writes go to a temporary frame.  What it
    returns is the frame it was given. *)
Theorem _treat_negative_values_to_plot_no_op (h : heap) (df : nat) :
  (∀ (l : nat) (f : DataFrame),
     h !! l = Some f → (_treat_negative_values_to_plot is_numeric_dtype df h).2 !! l = Some f)
  ∧ (∀ l : nat,
       (_treat_negative_values_to_plot is_numeric_dtype df h).1 = Ok l →
       l = df
       ∧ (_treat_negative_values_to_plot is_numeric_dtype df h).2 !! l = h !! df).
Proof.
  destruct (keeps_treat h df h) as [Hsub Hres]; [done|].
  assert (Hkeep : ∀ (l : nat) (f : DataFrame),
     h !! l = Some f → (_treat_negative_values_to_plot is_numeric_dtype df h).2 !! l = Some f).
  { intros l f Hl. by eapply lookup_weaken. }
  split; [done|].
  intros l Hl. apply Hres in Hl as ->. split; [done|].
  destruct (h !! df) as [d|] eqn:Hd; [by apply Hkeep|].
  unfold _treat_negative_values_to_plot, mbind, St_bind, deref. by rewrite Hd.
Qed.

(** With column labels that are no dtype names, as the charts have them,
    the call goes through. *)
Lemma _treat_negative_values_to_plot_returns (h : heap) (df : nat) (d : DataFrame) :
  h !! df = Some d →
  (∀ c, c ∈ (columns d).*1 → is_numeric_dtype c = false) →
  (_treat_negative_values_to_plot is_numeric_dtype df h).1 = Ok df.
Proof.
  intros Hd Hnum.
  assert (Hnil : filter (λ col, is_numeric_dtype col = true) (columns d).*1 = []).
  { apply elem_of_nil_inv. intros c [Hc Hin]%list_elem_of_filter.
    rewrite (Hnum c Hin) in Hc. done. }
  unfold _treat_negative_values_to_plot, mbind, St_bind, deref.
  rewrite Hd, Hnil. unfold getitem_columns, mbind, St_bind, deref. rewrite Hd. simpl.
  unfold frame_le, mbind, St_bind, deref. rewrite lookup_insert_eq. simpl.
  unfold getitem_mask, mbind, St_bind, deref.
  rewrite lookup_insert_ne, lookup_insert_ne, Hd.
  - rewrite lookup_insert_eq. simpl. unfold setitem_columns, mbind, St_bind, deref.
    rewrite lookup_insert_eq. done.
  - intros Heq. pose proof (is_fresh (dom h)) as Hf. rewrite Heq in Hf.
    apply Hf. apply elem_of_dom. eauto.
  - intros Heq. pose proof (is_fresh (dom (<[fresh (dom h) := mkFrame (index_name d) (index d) []]> h))) as Hf.
    rewrite Heq in Hf. apply Hf. rewrite dom_insert. apply elem_of_union. right.
    apply elem_of_dom. eauto.
Qed.

End frame_rule.

Example _treat_negative_values_to_plot_sample :
  let data := viz.mkFrame None (viz.RangeIndex 2)
                [(viz.LStr "Dias", [viz.SInt 0; viz.SInt 1]);
                 (viz.LStr "Exposto_lower", [viz.SFloat (-1); viz.SFloat 0]);
                 (viz.LStr "float", [viz.SFloat (-3); viz.SFloat 2])] in
  let run := viz._treat_negative_values_to_plot
               (λ c, if viz.label_eq_dec c (viz.LStr "float") then true else false)
               5%nat {[ 5%nat := data ]} in
  run.1 = Ok 5%nat ∧ run.2 !! 5%nat = Some data.
Proof. split; reflexivity. Qed.

(** ** simulator/pages/utils/viz.py: [prep_tidy_data_to_plot] *)

Lemma fmap_join {A B} (f : A → B) (ls : list (list A)) :
  f <$> mjoin ls = mjoin ((λ l, f <$> l) <$> ls).
Proof.
  induction ls as [|l ls IH]; [done|].
  rewrite fmap_cons. cbn [mjoin list_join]. rewrite fmap_app. f_equal. exact IH.
Qed.

Section int_keys.
Import viz.

Lemma sort_uniq_SInt (l : list Z) : sort_uniq (SInt <$> l) = SInt <$> sort_uniq l.
Proof.
  induction l as [|z l IH]; [done|].
  rewrite fmap_cons. cbn [sort_uniq foldr]. fold (sort_uniq (SInt <$> l)). fold (sort_uniq l).
  rewrite IH. generalize (sort_uniq l). intros k.
  induction k as [|y k IHk]; [done|].
  rewrite fmap_cons. cbn [insert_uniq].
  change (cmp (SInt z) (SInt y)) with (cmp z y).
  destruct (cmp z y); [done..|]. rewrite fmap_cons. f_equal. exact IHk.
Qed.

Lemma filter_notna_SInt (l : list Z) :
  filter (λ k, isna k = false) (SInt <$> l) = SInt <$> l.
Proof.
  induction l as [|z l IH]; [done|].
  rewrite fmap_cons, filter_cons, decide_True by done. f_equal. exact IH.
Qed.


Lemma existsb_cmp_eqb_SInt (z : Z) (l : list Z) :
  existsb (cmp_eqb (SInt z)) (SInt <$> l) = bool_decide (z ∈ l).
Proof.
  induction l as [|y l IH]; [done|].
  rewrite fmap_cons. cbn [existsb].
  change (cmp_eqb (SInt z) (SInt y)) with (cmp_eqb z y). rewrite IH.
  destruct (cmp_eqb z y) eqn:E.
  - apply cmp_eqb_true in E as ->. simpl. symmetry. apply bool_decide_eq_true. left.
  - apply cmp_eqb_false in E. simpl. apply bool_decide_ext.
    rewrite elem_of_cons. naive_solver.
Qed.

Lemma is_unique_SInt (l : list Z) : NoDup l → is_unique (SInt <$> l) = true.
Proof.
  induction 1 as [|z l Hz Hl IH]; [done|].
  rewrite fmap_cons. cbn [is_unique]. rewrite existsb_cmp_eqb_SInt, IH.
  by rewrite bool_decide_eq_false_2.
Qed.

End int_keys.

Section prep_tidy_data_to_plot.
Import viz.
Variables np_mean np_std : list float → float.

(** *** The validated merge *)

Lemma merge_raises_iff (l r : Frame label float) :
  merge l r = Raise MergeError ↔ is_unique (index l) && is_unique (index r) = false.
Proof. unfold merge. destruct (is_unique (index l) && is_unique (index r)); naive_solver. Qed.

Lemma merge_raises_only_MergeError (l r : Frame label float) (e : exn) :
  merge l r = Raise e → e = MergeError.
Proof. unfold merge. destruct (is_unique (index l) && is_unique (index r)); naive_solver. Qed.



(** *** The aggregate of the long form of an array *)

Lemma compute_mean_and_boundaries_total (df : DataFrame) (variable : string)
    (ks : list scalar) (fs : list float) :
  LStr variable ∈ (columns df).*1 →
  grouper df "Dias" = Ok ks → column df variable = Ok (SFloat <$> fs) →
  ∃ mean std : list float,
    compute_mean_and_boundaries np_mean np_std df variable
    = Ok (mkFrame (Some "Dias") (sort_uniq (filter (λ k, isna k = false) ks))
            [(LStr ((variable +:+ "_") +:+ "mean"), mean);
             (LStr ((variable +:+ "_") +:+ "std"), std);
             (LStr ((variable +:+ "_") +:+ "upper"), zip_with PrimFloat.add mean std);
             (LStr ((variable +:+ "_") +:+ "lower"), zip_with PrimFloat.sub mean std)])
    ∧ length mean = length (sort_uniq (filter (λ k, isna k = false) ks))
    ∧ length std = length (sort_uniq (filter (λ k, isna k = false) ks)).
Proof.
  intros Hin Hks Hvs. unfold compute_mean_and_boundaries, groupby_agg.
  rewrite bool_decide_eq_true_2 by done. cbn [negb].
  rewrite Hks, Hvs. cbn [mbind result_bind].
  rewrite (mapM_fmap_Some to_float SFloat fs) by done.
  eexists _, _. split; [reflexivity|]. cbn [snd]. by rewrite !length_fmap.
Qed.

Lemma long_dias (arr : ndarray) (t_space : list Z) :
  length (rows arr) = length t_space →
  ((mjoin (chunk arr t_space <$> seq 0 (ncols arr))).*1).*2
  = SInt <$> mjoin ((λ _, t_space) <$> seq 0 (ncols arr)).
Proof.
  intros Hlen. rewrite !fmap_join, <- !list_fmap_compose. f_equal.
  apply list_fmap_ext. intros i c _. unfold compose, chunk.
  rewrite fst_zip by (rewrite !length_fmap; lia).
  rewrite <- !list_fmap_compose. apply list_fmap_ext. done.
Qed.

Lemma long_values (arr : ndarray) (t_space : list Z) :
  length (rows arr) = length t_space →
  (mjoin (chunk arr t_space <$> seq 0 (ncols arr))).*2
  = SFloat <$> mjoin ((λ c : nat, (λ r : list float, default nan (r !! c)) <$> rows arr)
                      <$> seq 0 (ncols arr)).
Proof.
  intros Hlen. rewrite !fmap_join, <- !list_fmap_compose. f_equal.
  apply list_fmap_ext. intros i c _. cbn. unfold chunk.
  rewrite snd_zip by (rewrite !length_fmap; lia).
  by rewrite <- list_fmap_compose.
Qed.

Lemma long_keys (t_space : list Z) (n : nat) :
  (0 < n)%nat → sort_uniq (mjoin ((λ _, t_space) <$> seq 0 n)) = sort_uniq t_space.
Proof.
  intros Hn. apply sort_uniq_ext. intros z. rewrite list_elem_of_join. split.
  - intros (l & Hz & (c & -> & _)%list_elem_of_fmap). done.
  - intros Hz. exists t_space. split; [done|]. apply list_elem_of_fmap.
    exists O. split; [done|]. apply elem_of_seq. lia.
Qed.

(** The aggregate of one compartment: one row per distinct time step. *)
Lemma aggregate_of_array (arr : ndarray) (t_space : list Z) (name : string)
    (df : DataFrame) :
  length (rows arr) = length t_space → (0 < ncols arr)%nat →
  name ≠ "iteration" → name ≠ "Dias" →
  unstack_iterations_ndarray arr t_space name = Ok df →
  ∃ mean std : list float,
    compute_mean_and_boundaries np_mean np_std df name
    = Ok (mkFrame (Some "Dias") (SInt <$> sort_uniq t_space)
            [(LStr ((name +:+ "_") +:+ "mean"), mean);
             (LStr ((name +:+ "_") +:+ "std"), std);
             (LStr ((name +:+ "_") +:+ "upper"), zip_with PrimFloat.add mean std);
             (LStr ((name +:+ "_") +:+ "lower"), zip_with PrimFloat.sub mean std)])
    ∧ length mean = length (sort_uniq t_space)
    ∧ length std = length (sort_uniq t_space).
Proof.
  intros Hlen Hn Hne1 Hne2. rewrite unstack_iterations_ndarray_eq by done.
  intros [= <-]. cbn zeta.
  set (s := mjoin (chunk arr t_space <$> seq 0 (ncols arr))).
  edestruct (compute_mean_and_boundaries_total
               (mkFrame None (RangeIndex (length s))
                  [(LStr "iteration", (s.*1).*1); (LStr "Dias", (s.*1).*2); (LStr name, s.*2)])
               name ((s.*1).*2)) as (mean & std & Heq & Hm & Hs).
  - cbn. do 2 apply list_elem_of_further. left.
  - apply grouper_column; [by apply long_labels_NoDup|done|reflexivity].
  - unfold column. cbn [columns getitem].
    rewrite decide_False by congruence. rewrite decide_False by congruence.
    rewrite decide_True by done. f_equal. by apply long_values.
  - unfold s in Heq, Hm, Hs.
    rewrite long_dias, filter_notna_SInt, sort_uniq_SInt, long_keys in Heq, Hm, Hs by done.
    rewrite length_fmap in Hm, Hs.
    exists mean, std. unfold s. rewrite long_dias by done. done.
Qed.

(** *** Dates within the range of a [Timestamp] *)

Lemma in_Timestamp_true (d : Z) : in_Timestamp d = true ↔ - 106751 ≤ d ≤ 106751.
Proof. unfold in_Timestamp, Timestamp_days. rewrite andb_true_iff, !Z.leb_le. lia. Qed.

Lemma to_datetime_Ok (start_date : Z) :
  - 106751 ≤ start_date ≤ 106751 → to_datetime start_date = Ok start_date.
Proof. intros H. unfold to_datetime. by rewrite (proj2 (in_Timestamp_true _) H). Qed.



Lemma add_days_SInt (start t : Z) :
  - 106751 ≤ t ≤ 106751 → - 106751 ≤ start + t ≤ 106751 →
  add_days start (SInt t) = Ok (SDate (start + t)).
Proof.
  intros Ht Hs. unfold add_days, timedelta. cbn [mbind result_bind].
  rewrite (proj2 (Z.leb_le _ _)) by lia. cbn [mbind result_bind].
  by rewrite !(proj2 (in_Timestamp_true _)) by done.
Qed.




Lemma mapR_add_days (start : Z) (ks : list Z) :
  Forall (λ t, - 106751 ≤ t ≤ 106751 ∧ - 106751 ≤ start + t ≤ 106751) ks →
  mapR (add_days start) (SInt <$> ks) = Ok ((λ t, SDate (start + t)) <$> ks).
Proof.
  induction 1 as [|k ks [Hk Hs] _ IH]; [done|].
  rewrite !fmap_cons. cbn [mapR]. rewrite (add_days_SInt _ _ Hk Hs), IH. done.
Qed.


Lemma dates_fit_sub (start_date : Z) (l l' : list Z) :
  dates_fit start_date l → (∀ k, k ∈ l' → k ∈ l) →
  Forall (λ t, - 106751 ≤ t ≤ 106751 ∧ - 106751 ≤ start_date + t ≤ 106751) l'.
Proof.
  intros [_ Hl] Hsub. apply Forall_forall. intros k Hk.
  rewrite Forall_forall in Hl. by apply Hl, Hsub.
Qed.


(** *** Columns set by label *)

Lemma getitem_set_column {V} (cols : list (label * list V)) (c : label) (v : list V) :
  getitem (set_column cols c v) c = Some v.
Proof.
  induction cols as [|[c' v'] cols IH]; cbn.
  - by rewrite decide_True.
  - destruct (decide (c = c')) as [->|Hne]; cbn.
    + by rewrite decide_True.
    + by rewrite decide_False.
Qed.

Lemma getitem_set_column_ne {V} (cols : list (label * list V)) (c c' : label) (v : list V) :
  c' ≠ c → getitem (set_column cols c v) c' = getitem cols c'.
Proof.
  intros Hne. induction cols as [|[c0 v0] cols IH]; cbn.
  - by rewrite decide_False.
  - destruct (decide (c = c0)) as [->|Hne0]; cbn.
    + by rewrite !decide_False.
    + destruct (decide (c' = c0)); [done|]. exact IH.
Qed.

(** *** The steps of [prep_tidy_data_to_plot] *)


Lemma aggregate_of_array_any (arr : ndarray) (t_space : list Z) (name : string)
    (df : DataFrame) :
  length (rows arr) = length t_space →
  name ≠ "iteration" → name ≠ "Dias" →
  unstack_iterations_ndarray arr t_space name = Ok df →
  ∃ (keys : list Z) (mean std : list float),
    NoDup keys
    ∧ (∀ k, k ∈ keys → k ∈ t_space)
    ∧ compute_mean_and_boundaries np_mean np_std df name
      = Ok (mkFrame (Some "Dias") (SInt <$> keys)
              [(LStr ((name +:+ "_") +:+ "mean"), mean);
               (LStr ((name +:+ "_") +:+ "std"), std);
               (LStr ((name +:+ "_") +:+ "upper"), zip_with PrimFloat.add mean std);
               (LStr ((name +:+ "_") +:+ "lower"), zip_with PrimFloat.sub mean std)]).
Proof.
  intros Hlen Hne1 Hne2. rewrite unstack_iterations_ndarray_eq by done.
  intros [= <-]. cbn zeta.
  set (s := mjoin (chunk arr t_space <$> seq 0 (ncols arr))).
  edestruct (compute_mean_and_boundaries_total
               (mkFrame None (RangeIndex (length s))
                  [(LStr "iteration", (s.*1).*1); (LStr "Dias", (s.*1).*2); (LStr name, s.*2)])
               name ((s.*1).*2)) as (mean & std & Heq & _ & _).
  - cbn. do 2 apply list_elem_of_further. left.
  - apply grouper_column; [by apply long_labels_NoDup|done|reflexivity].
  - unfold column. cbn [columns getitem].
    rewrite decide_False by congruence. rewrite decide_False by congruence.
    rewrite decide_True by done. f_equal. by apply long_values.
  - unfold s in Heq.
    rewrite long_dias, filter_notna_SInt, sort_uniq_SInt in Heq by done.
    exists (sort_uniq (mjoin ((λ _ : nat, t_space) <$> seq 0 (ncols arr)))), mean, std.
    split; [apply sort_uniq_NoDup|]. split.
    + intros k Hk. rewrite elem_of_sort_uniq in Hk.
      apply list_elem_of_join in Hk as (l & Hk & Hl).
      apply list_elem_of_fmap in Hl as (c & -> & _). done.
    + unfold s. rewrite long_dias by done. exact Heq.
Qed.


Lemma prep_tidy_data_to_plot_misfit (E I : ndarray) (t_space : list Z) (start_date : Z) :
  ¬ (length (rows E) = length t_space ∧ length (rows I) = length t_space) →
  prep_tidy_data_to_plot np_mean np_std E I t_space start_date
  = Raise (ValueError "Shape of passed values does not match the index").
Proof.
  intros Hnot. unfold prep_tidy_data_to_plot, unstack_iterations_ndarray, DataFrame_of_array.
  destruct (decide (length t_space = length (rows E))) as [HE|HE]; [|done].
  destruct (decide (length t_space = length (rows I))) as [HI|HI]; [|done].
  destruct Hnot. done.
Qed.

Lemma prep_tidy_data_to_plot_run (E I : ndarray) (t_space : list Z) (start_date : Z) :
  length (rows E) = length t_space → length (rows I) = length t_space →
  ∃ (keys : list Z) (merged : Frame label float),
    NoDup keys ∧ (∀ k, k ∈ keys → k ∈ t_space)
    ∧ index merged = SInt <$> keys ∧ index_name merged = Some "Dias"
    ∧ prep_tidy_data_to_plot np_mean np_std E I t_space start_date
      = with_dates start_date (reset_index merged).
Proof.
  intros HE HI.
  destruct (unstack_iterations_ndarray E t_space exposto_name) as [df_E|] eqn:HdfE;
    [|by rewrite unstack_iterations_ndarray_eq in HdfE].
  destruct (unstack_iterations_ndarray I t_space infectado_name) as [df_I|] eqn:HdfI;
    [|by rewrite unstack_iterations_ndarray_eq in HdfI].
  destruct (aggregate_of_array_any E t_space exposto_name df_E)
    as (kE & em & es & HkE & HsubE & HaE); [done..|].
  destruct (aggregate_of_array_any I t_space infectado_name df_I)
    as (kI & imn & isd & HkI & _ & HaI); [done..|].
  unfold prep_tidy_data_to_plot. rewrite HdfE, HdfI. cbn [mbind result_bind].
  rewrite HaE, HaI. cbn [mbind result_bind].
  unfold merge. cbn [index columns index_name].
  rewrite (is_unique_SInt kE HkE), (is_unique_SInt kI HkI). cbn [andb mbind result_bind].
  eexists kE, _. split_and!; [done|done| | |reflexivity]; done.
Qed.


End prep_tidy_data_to_plot.


Example prep_tidy_data_to_plot_sample :
  viz.prep_tidy_data_to_plot sample_mean sample_std sample_E sample_I [0; 1] 18341
  = Ok (viz.mkFrame None (viz.RangeIndex 2)
          [(viz.LStr "Dias", [viz.SInt 0; viz.SInt 1]);
           (viz.LStr "Exposto_mean", viz.SFloat <$> [2; 6]%float);
           (viz.LStr "Exposto_std", viz.SFloat <$> [2; 0x1.52a7fa9d2f8eap+1]%float);
           (viz.LStr "Exposto_upper", viz.SFloat <$> [4; 0x1.14a9fea74be3ap+3]%float);
           (viz.LStr "Exposto_lower", viz.SFloat <$> [0; 0x1.ad580562d0716p+1]%float);
           (viz.LStr "Infectado_mean", viz.SFloat <$> [2; 1]%float);
           (viz.LStr "Infectado_std", viz.SFloat <$> [2; 0]%float);
           (viz.LStr "Infectado_upper", viz.SFloat <$> [4; 1]%float);
           (viz.LStr "Infectado_lower", viz.SFloat <$> [0; 1]%float);
           (viz.LStr "Datas", [viz.SDate 18341; viz.SDate 18342])]).
Proof. reflexivity. Qed.

(** A frame with a repeated key is refused by the merge. *)
Example merge_repeated_key :
  viz.merge (viz.mkFrame (Some "Dias") [viz.SInt 0; viz.SInt 0] [(viz.LStr "a", [1; 2]%float)])
            (viz.mkFrame (Some "Dias") [viz.SInt 0] [(viz.LStr "b", [3]%float)])
  = Raise MergeError.
Proof. reflexivity. Qed.

(** ** simulator/pages/utils/viz.py: [plot_r0] *)

(** C2: [r0_samples[-min_days:]] cuts the first axis, the samples.  With
    [min_days = 1] the chart keeps all three days of the last sample,
    where the most recent day of both samples was meant. *)
Theorem plot_r0_cuts_samples :
  (∃ chart, viz.plot_r0 sample_r0 100 "SP" 1 = Ok chart
     ∧ viz.chart_data chart
       = viz.mkFrame None (viz.RangeIndex 3)
           [(viz.LStr "Dias", viz.SDate <$> [98; 99; 100]);
            (viz.LStr "r0", viz.SFloat <$> [4; 5; 6]%float)])
  ∧ (∃ chart, viz.plot_r0_as_specified sample_r0 100 "SP" 1 = Ok chart
       ∧ viz.chart_data chart
         = viz.mkFrame None (viz.RangeIndex 2)
             [(viz.LStr "Dias", viz.SDate <$> [100; 100]);
              (viz.LStr "r0", viz.SFloat <$> [3; 6]%float)])
  ∧ viz.plot_r0 sample_r0 100 "SP" 1 ≠ viz.plot_r0_as_specified sample_r0 100 "SP" 1.
Proof.
  split_and!.
  - eexists. split; reflexivity.
  - eexists. split; reflexivity.
  - intros Heq. vm_compute in Heq. discriminate Heq.
Qed.

(** The cut never removes a day: the cut matrix has the columns of the
    matrix it is given. *)
Lemma plot_r0_keeps_every_day (r0_samples : viz.ndarray) (min_days : Z) :
  viz.ncols (viz.mkArray (viz.ncols r0_samples)
               (slice_from (- min_days) (viz.rows r0_samples)))
  = viz.ncols r0_samples.
Proof. reflexivity. Qed.

Example plot_r0_all_samples :
  ∃ chart, viz.plot_r0 sample_r0 100 "SP" 2 = Ok chart
    ∧ viz.chart_data chart
      = viz.mkFrame None (viz.RangeIndex 6)
          [(viz.LStr "Dias", viz.SDate <$> [98; 99; 100; 98; 99; 100]);
           (viz.LStr "r0", viz.SFloat <$> [1; 2; 3; 4; 5; 6]%float)].
Proof. eexists. split; reflexivity. Qed.

(** * Further properties of the code *)

(** ** covid19/data.py: [_fix_city_name] and [prepare_fiocruz_data] *)

Lemma rsplit1_None (sep : ascii) (s : string) :
  contains sep s = false → rsplit1 sep s = None.
Proof.
  induction s as [|c s IH]; [done|]. simpl.
  intros [Hc Hs]%orb_false_iff. by rewrite (IH Hs), Hc.
Qed.

Lemma rsplit1_last (sep : ascii) (a b : string) :
  contains sep b = false → rsplit1 sep (a +:+ String sep b) = Some (a, b).
Proof.
  intros Hb. induction a as [|c a IH]; simpl.
  - by rewrite (rsplit1_None _ _ Hb), Ascii.eqb_refl.
  - by rewrite IH.
Qed.

Lemma rsplit1_length (sep : ascii) (s a b : string) :
  rsplit1 sep s = Some (a, b) → String.length s = S (String.length a + String.length b).
Proof.
  revert a b. induction s as [|c s IH]; intros a b; [done|]. simpl.
  destruct (rsplit1 sep s) as [[a' b']|].
  - intros [= <- <-]. simpl. by rewrite (IH a' b').
  - destruct (Ascii.eqb c sep); [|done]. by intros [= <- <-].
Qed.

Lemma length_append (a b : string) :
  String.length (a +:+ b) = (String.length a + String.length b)%nat.
Proof. induction a as [|c a IH]; simpl; [done|]. by rewrite IH. Qed.

(** X1: [_fix_city_name] puts a slash in the place of the last space of
    the name, leaves a name without a space as it is, and never changes
    the length. *)
Theorem _fix_city_name_last_space :
  (∀ a b : string, contains " " b = false →
     data._fix_city_name (a +:+ " " +:+ b) = a +:+ "/" +:+ b)
  ∧ (∀ s : string, contains " " s = false → data._fix_city_name s = s)
  ∧ (∀ s : string, String.length (data._fix_city_name s) = String.length s).
Proof.
  split_and!.
  - intros a b Hb. unfold data._fix_city_name.
    change (a +:+ " " +:+ b) with (a +:+ String " " b).
    by rewrite (rsplit1_last _ _ _ Hb).
  - intros s Hs. unfold data._fix_city_name. by rewrite (rsplit1_None _ _ Hs).
  - intros s. unfold data._fix_city_name.
    destruct (rsplit1 " " s) as [[a b]|] eqn:E; [|done].
    apply rsplit1_length in E. rewrite E, length_append.
    change ("/" +:+ b) with (String "/" b). cbn [String.length]. lia.
Qed.

Example _fix_city_name_sample :
  data._fix_city_name "Rio Branco AC" = "Rio Branco/AC"
  ∧ data._fix_city_name "Brasília" = "Brasília".
Proof. split; reflexivity. Qed.

Section fiocruz_rows_kept.
Import data.
Variable state2initial : gmap string string.

Lemma prefix_BR_not_Mun (nm : string) :
  String.prefix "#BR" nm = true → String.prefix "#Mun BR" nm = false.
Proof.
  destruct nm as [|c0 nm]; [by cbn|]. cbn [String.prefix].
  destruct (ascii_dec "#" c0) as [<-|]; [|done].
  destruct nm as [|c1 nm]; [by cbn|]. cbn [String.prefix].
  destruct (ascii_dec "B" c1) as [<-|]; [|done]. intros _.
  destruct (ascii_dec "M" "B") as [E|]; [discriminate E|reflexivity].
Qed.

Lemma where_startswith_omap {A} (p : string) (n : nat) (g : string → A) (r : Row) :
  (name r ≫= λ nm, if String.prefix p nm then Some (g (str_from n nm)) else None)
  = g <$> where_startswith p n r.
Proof.
  unfold where_startswith. destruct (name r) as [nm|]; [|done]. cbn.
  by destruct (String.prefix p nm).
Qed.

Lemma prepare_filter {A} (p : string) (n : nat) (setter : option string → Row → Row)
    (col : Row → option string) (g : option string → Row → A) (df : list Row) :
  (∀ v r, col (setter v r) = v) →
  (λ r, g (col r) r) <$> filter (λ r, is_Some (col r))
          ((λ r, setter (where_startswith p n r) r) <$> df)
  = omap (λ r, (λ s, g (Some s) (setter (Some s) r)) <$> where_startswith p n r) df.
Proof.
  intros Hcol. induction df as [|r df IH]; [done|].
  rewrite fmap_cons, filter_cons. cbn [omap list_omap].
  destruct (where_startswith p n r) as [s|] eqn:Hw.
  - rewrite decide_True by (rewrite Hcol; eauto).
    rewrite fmap_cons, Hcol. cbn. f_equal. exact IH.
  - rewrite decide_False by (rewrite Hcol; by intros [? ?]). cbn. exact IH.
Qed.

Lemma prepare_fiocruz_data_state (df : list Row) :
  prepare_fiocruz_data state2initial df "state"
  = Some (omap (λ r, nm ← name r;
                     if String.prefix "#BR" nm
                     then Some (set_state (Some (default (str_from 5 nm)
                                                   (state2initial !! str_from 5 nm))) r)
                     else None) df).
Proof.
  unfold prepare_fiocruz_data. cbn [String.eqb Ascii.eqb Bool.eqb andb]. f_equal.
  rewrite (prepare_filter "#BR" 5 set_state state
             (λ v r, set_state ((λ s, default s (state2initial !! s)) <$> v) r)) by done.
  apply list_omap_ext, Forall2_same_length_lookup_2; [done|].
  intros i r r' Hr Hr'. rewrite Hr in Hr'. injection Hr' as <-.
  rewrite (where_startswith_omap "#BR" 5
             (λ s, set_state (Some (default s (state2initial !! s))) r)).
  by destruct (where_startswith "#BR" 5 r).
Qed.

Lemma prepare_fiocruz_data_city (df : list Row) :
  prepare_fiocruz_data state2initial df "city"
  = Some (omap (λ r, nm ← name r;
                     if String.prefix "#Mun BR" nm
                     then Some (set_city (Some (_fix_city_name (str_from 9 nm))) r)
                     else None) df).
Proof.
  unfold prepare_fiocruz_data. cbn [String.eqb Ascii.eqb Bool.eqb andb]. f_equal.
  rewrite (prepare_filter "#Mun BR" 9 set_city city
             (λ v r, set_city (_fix_city_name <$> v) r)) by done.
  apply list_omap_ext, Forall2_same_length_lookup_2; [done|].
  intros i r r' Hr Hr'. rewrite Hr in Hr'. injection Hr' as <-.
  rewrite (where_startswith_omap "#Mun BR" 9
             (λ s, set_city (Some (_fix_city_name s)) r)).
  by destruct (where_startswith "#Mun BR" 9 r).
Qed.

(** What the rows kept under a mark have in common with the rows of the
    file: [proj] is any reading of a row that the new key does not
    change. *)
Lemma omap_marked {B} (p : string) (g : string → Row → Row) (proj : Row → B)
    (df : list Row) :
  (∀ s r, proj (g s r) = proj r) →
  proj <$> omap (λ r, nm ← name r; if String.prefix p nm then Some (g nm r) else None) df
  = proj <$> filter (λ r, marked p r = true) df.
Proof.
  intros Hproj. induction df as [|r df IH]; [done|].
  rewrite filter_cons. cbn [omap list_omap].
  destruct (name r) as [nm|] eqn:Hn; cbn [mbind option_bind].
  - destruct (String.prefix p nm) eqn:Hp.
    + rewrite decide_True by (unfold marked; by rewrite Hn).
      rewrite !fmap_cons, Hproj. f_equal. exact IH.
    + rewrite decide_False by (unfold marked; rewrite Hn; congruence). exact IH.
  - rewrite decide_False by (unfold marked; by rewrite Hn). exact IH.
Qed.

Lemma omap_marked_keyed (p : string) (g : string → Row → Row) (key : Row → option string)
    (df : list Row) :
  (∀ s r, is_Some (key (g s r))) →
  Forall (λ r, is_Some (key r))
    (omap (λ r, nm ← name r; if String.prefix p nm then Some (g nm r) else None) df).
Proof.
  intros Hkey. apply Forall_forall. intros r' (r & _ & Hr)%list_elem_of_omap.
  destruct (name r) as [nm|]; cbn [mbind option_bind] in Hr; [|done].
  destruct (String.prefix p nm); [|done]. injection Hr as <-. apply Hkey.
Qed.

(** X2: [prepare_fiocruz_data] returns nothing for a grouping other than
    state and city.  For these two it keeps the rows whose name starts
    with the mark of the grouping ([#BR], [#Mun BR]) and no other, in the
    order of the file and with their date, name and counts as they are;
    every row it keeps has a region, so the grouping that follows loses
    none.  No row carries both marks. *)
Theorem prepare_fiocruz_data_rows (df : list Row) (by_ : string) :
  (by_ ≠ "state" → by_ ≠ "city" → prepare_fiocruz_data state2initial df by_ = None)
  ∧ (by_ = "state" ∨ by_ = "city" →
     ∃ out : list Row,
       prepare_fiocruz_data state2initial df by_ = Some out
       ∧ (λ r, (date r, name r, newCases r, totalCases r)) <$> out
         = (λ r, (date r, name r, newCases r, totalCases r))
           <$> filter (λ r, marked (fiocruz_mark by_) r = true) df
       ∧ Forall (λ r, is_Some (get_by by_ r)) out)
  ∧ (∀ r, ¬ (marked "#BR" r = true ∧ marked "#Mun BR" r = true)).
Proof.
  split_and!.
  - intros H1 H2. unfold prepare_fiocruz_data.
    by rewrite (proj2 (String.eqb_neq _ _) H1), (proj2 (String.eqb_neq _ _) H2).
  - intros [-> | ->]; eexists.
    + split; [apply prepare_fiocruz_data_state|]. split.
      * apply (omap_marked "#BR"
                 (λ nm r, set_state (Some (default (str_from 5 nm)
                                             (state2initial !! str_from 5 nm))) r)). done.
      * apply (omap_marked_keyed "#BR"
                 (λ nm r, set_state (Some (default (str_from 5 nm)
                                             (state2initial !! str_from 5 nm))) r)
                 (get_by "state")). intros s r. cbn. eauto.
    + split; [apply prepare_fiocruz_data_city|]. split.
      * apply (omap_marked "#Mun BR"
                 (λ nm r, set_city (Some (_fix_city_name (str_from 9 nm))) r)). done.
      * apply (omap_marked_keyed "#Mun BR"
                 (λ nm r, set_city (Some (_fix_city_name (str_from 9 nm))) r)
                 (get_by "city")). intros s r. cbn. eauto.
  - intros r [H1 H2]. unfold marked in H1, H2. destruct (name r) as [nm|]; [|done].
    by rewrite (prefix_BR_not_Mun nm H1) in H2.
Qed.

End fiocruz_rows_kept.

(** The cut of a name counts characters, not bytes. *)
Example prepare_fiocruz_data_accented_name :
  data.prepare_fiocruz_data ∅ [data.mkRow 1 (Some "#BRéé Pará") None None (Some 2) None] "state"
  = Some [data.mkRow 1 (Some "#BRéé Pará") (Some " Pará") None (Some 2) None].
Proof. reflexivity. Qed.

(** ** covid19/data.py: the cells of the table of [load_cases] *)

Lemma sum_skipna_Permutation (l1 l2 : list (option Z)) :
  l1 ≡ₚ l2 → sum_skipna l1 = sum_skipna l2.
Proof.
  induction 1 as [|x l1 l2 _ IH|x y l|l1 l2 l3 _ IH1 _ IH2]; simpl.
  - done.
  - by rewrite IH.
  - lia.
  - by rewrite IH1.
Qed.

Section load_cases_cells.
Import data.
Variable state2initial : gmap string string.

(** X3: the cell of a region on a date is the sum over the rows of the
    frame of that region on that date, rows that repeat a date and a
    region added up and missing counts skipped; where the region has no row
    on the date the cell is 0. *)
Theorem load_cases_cell_sums (w : World) (by_ source : string) (log : list string) :
  source ∈ ["ms"; "wcota"; "fiocruz"] → by_ ∈ ["state"; "city"] →
  ¬ (by_ = "city" ∧ source = "ms") →
  ∃ t : Wide Z,
    load_cases state2initial w by_ source log = (Ok t, log ++ [source_url source])
    ∧ ∀ (d : Z) (k : string),
        d ∈ w_index t → (k, "newCases") ∈ w_columns t →
        cell_at t d (k, "newCases")
        = Some (sum_skipna (newCases <$> rows_of by_ (source_frame state2initial w by_ source) d k))
        ∧ cell_at t d (k, "totalCases")
          = Some (sum_skipna (totalCases <$> rows_of by_ (source_frame state2initial w by_ source) d k))
        ∧ (rows_of by_ (source_frame state2initial w by_ source) d k = [] →
           cell_at t d (k, "newCases") = Some 0 ∧ cell_at t d (k, "totalCases") = Some 0).
Proof.
  intros Hs Hb Hnot. eexists. split; [by apply load_cases_run|].
  set (df := source_frame state2initial w by_ source).
  intros d k Hd Hk. cbn [tabulate w_index w_columns] in Hd, Hk.
  assert (Hk' : (k, "totalCases") ∈ table_columns by_ df).
  { unfold table_columns in *. apply elem_of_app in Hk as [Hk|Hk].
    - apply elem_of_app. right. apply list_elem_of_fmap in Hk as (k' & [= ->] & Hk').
      apply list_elem_of_fmap. eauto.
    - apply list_elem_of_fmap in Hk as (k' & [=] & _). }
  rewrite !cell_at_tabulate by done.
  assert (H1 : table_value by_ df d (k, "newCases")
               = sum_skipna (newCases <$> rows_of by_ df d k)) by reflexivity.
  assert (H2 : table_value by_ df d (k, "totalCases")
               = sum_skipna (totalCases <$> rows_of by_ df d k)) by reflexivity.
  rewrite H1, H2. split_and!; [done..|]. by intros ->.
Qed.

(** X4: the aggregate rows of the wcota file, marked with the state
    [TOTAL], are left out: grouped by state, no column of the table is
    labelled [TOTAL], and whatever the grouping the table is the one of the
    file without these rows. *)
Theorem load_cases_wcota_without_TOTAL (w : World) (by_ : string) (log : list string) :
  by_ ∈ ["state"; "city"] →
  (∃ t : Wide Z,
     load_cases state2initial w "state" "wcota" log = (Ok t, log ++ [COVID_19_BY_CITY_URL])
     ∧ ∀ c, c ∈ w_columns t → c.1 ≠ "TOTAL")
  ∧ load_cases state2initial w by_ "wcota" log
    = load_cases state2initial
        (mkWorld (ms_csv w) (filter (λ r, state r ≠ Some "TOTAL") (wcota_csv w))
                 (fiocruz_csv w))
        by_ "wcota" log.
Proof.
  intros Hb. split.
  - eexists. split.
    { apply load_cases_run; [|apply elem_of_cons; by left|by intros [? _]].
      apply list_elem_of_further. left. }
    intros [k m] Hc. cbn [tabulate w_columns] in Hc. cbn [fst]. intros ->.
    assert (Hk : "TOTAL" ∈ table_regions "state" (source_frame state2initial w "state" "wcota")).
    { unfold table_columns in Hc.
      apply elem_of_app in Hc as [Hc|Hc];
        apply list_elem_of_fmap in Hc as (k' & [= <- _] & Hk'); done. }
    apply table_regions_elem_of in Hk as (r & Hr & Hkr).
    change (source_frame state2initial w "state" "wcota")
      with (filter (λ r, state r ≠ Some "TOTAL") (wcota_csv w)) in Hr.
    apply list_elem_of_filter in Hr as [Hne _]. by apply Hne.
  - rewrite !load_cases_run;
      [|apply list_elem_of_further; left|done|by intros [_ ?]
       |apply list_elem_of_further; left|done|by intros [_ ?]].
    change (source_frame state2initial ?w' by_ "wcota")
      with (filter (λ r, state r ≠ Some "TOTAL") (wcota_csv w')).
    cbn [wcota_csv]. by rewrite list_filter_filter_l.
Qed.

End load_cases_cells.

Section load_cases_order.
Import data.
Variable state2initial : gmap string string.

Lemma table_Permutation (by_ : string) (df df' : list Row) :
  df ≡ₚ df' →
  tabulate (table_dates by_ df) (table_columns by_ df) (table_value by_ df)
  = tabulate (table_dates by_ df') (table_columns by_ df') (table_value by_ df').
Proof.
  intros Hp.
  assert (Hd : table_dates by_ df = table_dates by_ df').
  { apply ascending_ext; [apply sort_uniq_ascending..|]. intros d.
    rewrite !table_dates_elem_of. by setoid_rewrite Hp. }
  assert (Hr : table_regions by_ df = table_regions by_ df').
  { apply ascending_ext; [apply sort_uniq_ascending..|]. intros k.
    rewrite !table_regions_elem_of. by setoid_rewrite Hp. }
  assert (Hv : ∀ d c, table_value by_ df d c = table_value by_ df' d c).
  { intros d c. unfold table_value, rows_of.
    destruct (String.eqb c.2 "newCases"); apply sum_skipna_Permutation; by rewrite Hp. }
  unfold tabulate, table_columns. rewrite Hd, Hr. f_equal.
  apply list_fmap_ext. intros _ d _. apply list_fmap_ext. intros _ c _. apply Hv.
Qed.

(** X5: for the sources that bring their own totals, ms and wcota, the
    table does not depend on the order of the rows of the file. *)
Theorem load_cases_row_order (w w' : World) (by_ source : string) (log : list string) :
  source ∈ ["ms"; "wcota"] → by_ ∈ ["state"; "city"] →
  ¬ (by_ = "city" ∧ source = "ms") →
  ms_csv w ≡ₚ ms_csv w' → wcota_csv w ≡ₚ wcota_csv w' →
  load_cases state2initial w by_ source log = load_cases state2initial w' by_ source log.
Proof.
  intros Hs Hb Hnot Hms Hwc.
  assert (Hs' : source ∈ ["ms"; "wcota"; "fiocruz"]).
  { apply elem_of_cons in Hs as [->|Hs]; [left|]. apply list_elem_of_further.
    apply elem_of_cons in Hs as [->|Hs]; [left|]. by apply elem_of_nil in Hs. }
  rewrite !load_cases_run by done. do 2 f_equal.
  apply table_Permutation.
  repeat (apply elem_of_cons in Hs as [->|Hs]); [| |by apply elem_of_nil in Hs].
  - change (from_ms <$> ms_csv w ≡ₚ from_ms <$> ms_csv w'). by rewrite Hms.
  - change (filter (λ r, state r ≠ Some "TOTAL") (wcota_csv w)
            ≡ₚ filter (λ r, state r ≠ Some "TOTAL") (wcota_csv w')). by rewrite Hwc.
Qed.

End load_cases_order.

(** ** covid19/data.py: [load_population] keeps the total *)

Lemma foldr_add_fmap_add {A} (f g : A → Z) (l : list A) :
  foldr Z.add 0 ((λ x, f x + g x) <$> l)
  = foldr Z.add 0 (f <$> l) + foldr Z.add 0 (g <$> l).
Proof. induction l as [|x l IH]; [done|]. cbn. cbn in IH. rewrite IH. lia. Qed.

Lemma foldr_add_indicator (k0 : string) (v : Z) (ks : list string) :
  NoDup ks → k0 ∈ ks →
  foldr Z.add 0 ((λ k, if cmp_eqb k0 k then v else 0) <$> ks) = v.
Proof.
  induction 1 as [|k ks Hk Hks IH]; [by intros ?%elem_of_nil|].
  intros Hin. cbn. destruct (cmp_eqb k0 k) eqn:E.
  - apply cmp_eqb_true in E as ->.
    assert (foldr Z.add 0 ((λ k', if cmp_eqb k k' then v else 0) <$> ks) = 0) as Hz.
    { clear IH Hin Hks. induction ks as [|k' ks IH]; [done|]. cbn.
      apply not_elem_of_cons in Hk as [Hne Hk].
      apply cmp_eqb_false in Hne as ->. by apply IH. }
    cbn in Hz. rewrite Hz. lia.
  - apply cmp_eqb_false in E. apply elem_of_cons in Hin as [?|Hin]; [done|].
    cbn in IH. by rewrite (IH Hin).
Qed.

Lemma group_sums_total (rows : list (string * Z)) (ks : list string) :
  NoDup ks → (∀ kv, kv ∈ rows → kv.1 ∈ ks) →
  foldr Z.add 0 ((λ k, foldr Z.add 0 (filter (λ kv : string * Z, cmp_eqb kv.1 k = true) rows).*2)
                 <$> ks)
  = foldr Z.add 0 rows.*2.
Proof.
  intros Hks. induction rows as [|[k0 v0] rows IH]; intros Hin.
  - clear Hks Hin. induction ks as [|k ks IHk]; [done|]. cbn. cbn in IHk. by rewrite IHk.
  - transitivity (foldr Z.add 0 ((λ k, (if cmp_eqb k0 k then v0 else 0)
        + foldr Z.add 0 (filter (λ kv : string * Z, cmp_eqb kv.1 k = true) rows).*2) <$> ks)).
    { f_equal. apply list_fmap_ext. intros _ k _. rewrite filter_cons. cbn [fst].
      destruct (cmp_eqb k0 k) eqn:E.
      - rewrite decide_True by done. rewrite fmap_cons. cbn [snd foldr]. done.
      - rewrite decide_False by done. lia. }
    rewrite (foldr_add_fmap_add (λ k, if cmp_eqb k0 k then v0 else 0)), IH.
    + rewrite foldr_add_indicator; [done|done|]. apply (Hin (k0, v0)). left.
    + intros kv Hkv. apply Hin. by right.
Qed.

(** X6: the populations of the returned mapping add up to the populations
    of the file: every row is counted under one key. *)
Theorem load_population_total (ibge : list data.PopRow) (by_ : string) :
  by_ = "state" ∨ by_ = "city" →
  ∃ s, data.load_population ibge by_ = Ok s
    ∧ foldr Z.add 0 s.*2 = foldr Z.add 0 (data.estimated_population <$> ibge)
    ∧ (length s ≤ length ibge)%nat.
Proof.
  intros Hby. unfold data.load_population.
  assert (py_in by_ ["state"; "city"] = true) as ->
    by (destruct Hby as [-> | ->]; reflexivity).
  set (rows := omap _ ibge).
  set (s := (λ k, (k, foldr Z.add 0 (filter _ rows).*2)) <$> sort_uniq rows.*1).
  assert (Hk : s.*1 = sort_uniq rows.*1).
  { unfold s. rewrite <- list_fmap_compose. apply list_fmap_id. }
  assert (Hs : sort_rows s = s).
  { apply sort_rows_id. rewrite Hk. apply sort_uniq_ascending. }
  assert (Hrows : rows = (λ r, (default "" (data.pop_key by_ r), data.estimated_population r))
                         <$> ibge).
  { unfold rows. clear -Hby. induction ibge as [|r ibge IH]; [done|]. cbn.
    destruct Hby as [-> | ->]; cbn; f_equal; exact IH. }
  exists s. rewrite Hs. split_and!; [done| |].
  - unfold s. rewrite <- list_fmap_compose.
    rewrite (group_sums_total rows (sort_uniq rows.*1)).
    + rewrite Hrows, <- list_fmap_compose. done.
    + apply sort_uniq_NoDup.
    + intros kv Hkv. apply elem_of_sort_uniq, list_elem_of_fmap. eauto.
  - unfold s. rewrite length_fmap.
    transitivity (length rows.*1).
    + apply submseteq_length, NoDup_submseteq; [apply sort_uniq_NoDup|].
      intros k. by rewrite elem_of_sort_uniq.
    + rewrite Hrows, !length_fmap. done.
Qed.

Example load_population_by_state_adds_up :
  ∃ s, data.load_population
         [data.mkPopRow "SP" "Santos" 5; data.mkPopRow "AC" "Xapuri" 7;
          data.mkPopRow "SP" "Itu" 1] "state" = Ok s
    ∧ s = [("AC", 7); ("SP", 6)] ∧ foldr Z.add 0 s.*2 = 13.
Proof. eexists. split; [reflexivity|]. split; reflexivity. Qed.

(** ** simulator/pages/utils/viz.py: the groups of [compute_mean_and_boundaries] *)

Section compute_groups.
Import viz.
Variables np_mean np_std : list float → float.

Lemma getitem_Some_elem_of {V} (cols : list (label * list V)) (c : label) (v : list V) :
  getitem cols c = Some v → c ∈ cols.*1.
Proof.
  induction cols as [|[c' v'] cols IH]; [done|]. cbn.
  destruct (decide (c = c')) as [->|]; [left|]. intros ?. right. by apply IH.
Qed.

Lemma group_values_at (ts : list Z) (vs : list float) (t : Z) :
  (filter (λ kv : scalar * float, cmp_eqb kv.1 (SInt t) = true) (zip (SInt <$> ts) vs)).*2
  = values_at ts vs t.
Proof.
  unfold values_at. revert vs. induction ts as [|t0 ts IH]; intros [|v vs]; [done..|].
  cbn [fmap list_fmap zip_with]. rewrite !filter_cons. cbn [fst].
  change (cmp_eqb (SInt t0) (SInt t)) with (cmp_eqb t0 t).
  destruct (decide (cmp_eqb t0 t = true)) as [E|E].
  - apply cmp_eqb_true in E as ->. rewrite decide_True by done.
    rewrite !fmap_cons. cbn [snd]. f_equal. apply IH.
  - rewrite decide_False; [apply IH|]. intros ->. by rewrite cmp_eqb_refl in E.
Qed.

(** X7: for a frame with distinct column labels whose index is not named
    [Dias], with integer time steps and float values, the function returns one
    row per distinct time step, in ascending order; the mean and the
    standard deviation of a row are taken over the values of the rows of
    that time step, in the order of the table. *)
Theorem compute_mean_and_boundaries_groups (df : DataFrame) (variable : string)
    (ts : list Z) (vs : list float) :
  NoDup (columns df).*1 → index_name df ≠ Some "Dias" →
  column df "Dias" = Ok (SInt <$> ts) → column df variable = Ok (SFloat <$> vs) →
  ∃ out : Frame label float,
    compute_mean_and_boundaries np_mean np_std df variable = Ok out
    ∧ index out = SInt <$> sort_uniq ts
    ∧ ascending (sort_uniq ts)
    ∧ (∀ t, t ∈ sort_uniq ts ↔ t ∈ ts)
    ∧ column out ((variable +:+ "_") +:+ "mean")
      = Ok ((λ t, np_mean (values_at ts vs t)) <$> sort_uniq ts)
    ∧ column out ((variable +:+ "_") +:+ "std")
      = Ok ((λ t, np_std (values_at ts vs t)) <$> sort_uniq ts).
Proof.
  intros Hnd Hname Hks Hvs.
  apply (grouper_column _ _ _ Hnd Hname) in Hks.
  assert (Hin : LStr variable ∈ (columns df).*1).
  { unfold column in Hvs. destruct (getitem (columns df) (LStr variable)) eqn:E; [|done].
    by eapply getitem_Some_elem_of. }
  set (M := (λ t, np_mean (values_at ts vs t)) <$> sort_uniq ts).
  set (S := (λ t, np_std (values_at ts vs t)) <$> sort_uniq ts).
  assert (Heq : compute_mean_and_boundaries np_mean np_std df variable
                = Ok (mkFrame (Some "Dias") (SInt <$> sort_uniq ts)
                        [(LStr ((variable +:+ "_") +:+ "mean"), M);
                         (LStr ((variable +:+ "_") +:+ "std"), S);
                         (LStr ((variable +:+ "_") +:+ "upper"), zip_with PrimFloat.add M S);
                         (LStr ((variable +:+ "_") +:+ "lower"), zip_with PrimFloat.sub M S)])).
  { unfold compute_mean_and_boundaries, groupby_agg.
    rewrite bool_decide_eq_true_2 by done. cbn [negb].
    rewrite Hks, Hvs. cbn [mbind result_bind].
    rewrite (mapM_fmap_Some to_float SFloat vs) by done.
    rewrite filter_notna_SInt, sort_uniq_SInt.
    assert (HM : (λ k, np_mean (filter (λ kv : scalar * float, cmp_eqb kv.1 k = true)
                                  (zip (SInt <$> ts) vs)).*2) <$> (SInt <$> sort_uniq ts) = M).
    { unfold M. rewrite <- list_fmap_compose. apply list_fmap_ext. intros _ t _. cbn.
      by rewrite group_values_at. }
    assert (HS : (λ k, np_std (filter (λ kv : scalar * float, cmp_eqb kv.1 k = true)
                                 (zip (SInt <$> ts) vs)).*2) <$> (SInt <$> sort_uniq ts) = S).
    { unfold S. rewrite <- list_fmap_compose. apply list_fmap_ext. intros _ t _. cbn.
      by rewrite group_values_at. }
    rewrite HM, HS. reflexivity. }
  eexists. split; [exact Heq|]. cbn [index]. split_and!.
  - done.
  - apply sort_uniq_ascending.
  - intros t. apply elem_of_sort_uniq.
  - unfold column. cbn [columns getitem]. by rewrite decide_True.
  - unfold column. cbn [columns getitem].
    rewrite decide_False.
    2:{ intros [= E]. apply (f_equal String.length) in E. rewrite !length_append in E.
        cbn in E. lia. }
    by rewrite decide_True.
Qed.

End compute_groups.

(** ** simulator/pages/utils/viz.py: [prep_death_data_to_plot] and the shapes
       [prep_tidy_data_to_plot] accepts *)

Section prep_more.
Import viz.
Variables np_mean np_std : list float → float.

(** X8: for an array with one row per time step and at least one
    iteration, and dates within the range of a [Timestamp],
    [prep_death_data_to_plot] returns one row per distinct time step, in
    ascending order: the time step, the four statistics of the deaths, and
    the date [start_date] offset by the time step. *)
Theorem prep_death_data_to_plot_table (R : ndarray) (t_space : list Z) (start_date : Z) :
  length (rows R) = length t_space → (0 < ncols R)%nat →
  dates_fit start_date t_space →
  ∃ mean std : list float,
    length mean = length (sort_uniq t_space)
    ∧ length std = length (sort_uniq t_space)
    ∧ prep_death_data_to_plot np_mean np_std R t_space start_date
      = Ok (mkFrame None (RangeIndex (length (sort_uniq t_space)))
              [(LStr "Dias", SInt <$> sort_uniq t_space);
               (LStr "Óbito_mean", SFloat <$> mean);
               (LStr "Óbito_std", SFloat <$> std);
               (LStr "Óbito_upper", SFloat <$> zip_with PrimFloat.add mean std);
               (LStr "Óbito_lower", SFloat <$> zip_with PrimFloat.sub mean std);
               (LStr "Datas", (λ t, SDate (start_date + t)) <$> sort_uniq t_space)]).
Proof.
  intros HR Hn Hfit.
  destruct (unstack_iterations_ndarray R t_space obito_name) as [df_R|] eqn:Hdf;
    [|by rewrite unstack_iterations_ndarray_eq in Hdf].
  destruct (aggregate_of_array np_mean np_std R t_space obito_name df_R)
    as (mean & std & Ha & Hm & Hs); [done..|].
  exists mean, std. split_and!; [done..|].
  unfold prep_death_data_to_plot. rewrite Hdf. cbn [mbind result_bind].
  rewrite Ha. cbn [mbind result_bind].
  unfold with_dates. rewrite (to_datetime_Ok _ (proj1 Hfit)). cbn [mbind result_bind].
  unfold reset_index. cbn [columns index index_name getitem].
  rewrite decide_True by done. cbn [mbind result_bind].
  rewrite mapR_add_days by (eapply dates_fit_sub; [done|]; intros k; apply elem_of_sort_uniq).
  cbn [mbind result_bind]. rewrite length_fmap. reflexivity.
Qed.

(** X9: arrays that do not have one row per label of [t_space] are refused
    with the ValueError of the frame constructor, whatever the dates; for
    dates within the range of a [Timestamp], [prep_tidy_data_to_plot]
    returns a table exactly when both arrays have one row per label, also
    for an array with no iteration. *)
Theorem prep_tidy_data_to_plot_shapes (E I : ndarray) (t_space : list Z) (start_date : Z) :
  (¬ (length (rows E) = length t_space ∧ length (rows I) = length t_space) →
     prep_tidy_data_to_plot np_mean np_std E I t_space start_date
     = Raise (ValueError "Shape of passed values does not match the index"))
  ∧ (dates_fit start_date t_space →
     (length (rows E) = length t_space ∧ length (rows I) = length t_space
      ↔ ∃ data, prep_tidy_data_to_plot np_mean np_std E I t_space start_date = Ok data)).
Proof.
  split; [apply prep_tidy_data_to_plot_misfit|].
  intros Hfit. split.
  - intros [HE HI].
    destruct (prep_tidy_data_to_plot_run np_mean np_std E I t_space start_date HE HI)
      as (keys & merged & _ & Hsub & Hidx & Hname & ->).
    unfold with_dates. rewrite (to_datetime_Ok _ (proj1 Hfit)). cbn [mbind result_bind].
    unfold reset_index. rewrite Hname, Hidx. cbn [columns index index_name getitem default].
    rewrite decide_True by done. cbn [mbind result_bind].
    rewrite mapR_add_days by (by eapply dates_fit_sub). cbn [mbind result_bind]. eauto.
  - intros [data Hdata].
    destruct (decide (length (rows E) = length t_space ∧ length (rows I) = length t_space))
      as [|Hnot]; [done|].
    by rewrite prep_tidy_data_to_plot_misfit in Hdata.
Qed.

End prep_more.

(** ** simulator/pages/utils/viz.py: the table of [plot_r0] *)


Section plot_r0_frame.
Import viz.





End plot_r0_frame.

(** ** simulator/pages/utils/viz.py: [plot_derivatives] *)

Section derivative_charts.
Import viz charts.

Lemma set_column_labels {V} (cols : list (label * list V)) (c : label) (v : list V) :
  c ∈ cols.*1 → (set_column cols c v).*1 = cols.*1.
Proof.
  induction cols as [|[c0 v0] cols IH]; [by intros ?%elem_of_nil|]. cbn.
  destruct (decide (c = c0)) as [->|Hne]; [done|].
  intros [?|Hin]%elem_of_cons; [done|]. cbn. f_equal. by apply IH.
Qed.

Lemma mapR_Ok {A B} (f : A → B) (g : A → result B) (l : list A) :
  (∀ x, x ∈ l → g x = Ok (f x)) → mapR g l = Ok (f <$> l).
Proof.
  induction l as [|x l IH]; intros Hg; [done|]. cbn.
  rewrite (Hg x) by left. cbn. rewrite IH; [done|]. intros y Hy. apply Hg. by right.
Qed.

Lemma mapR_date_plus (start_date : Z) (ds : list Z) :
  dates_fit start_date ds →
  mapR (λ d, start_datetime ← to_datetime start_date; add_days start_datetime d) (SInt <$> ds)
  = Ok ((λ t, SDate (start_date + t)) <$> ds).
Proof.
  intros [Hstart Hds]. induction Hds as [|t ds [H1 H2] _ IH]; [done|].
  rewrite !fmap_cons. cbn [mapR]. rewrite IH, (to_datetime_Ok _ Hstart).
  cbn [mbind result_bind]. by rewrite (add_days_SInt _ _ H1 H2).
Qed.

(** X11: [plot_derivatives] needs a column [day]; without one it raises a
    KeyError.  For a frame with distinct column labels, integer day offsets
    and dates within the range of a [Timestamp], it makes one chart per
    other column, in the order of the columns and titled after it; the
    charts share one table, which is the given one with [day] turned into the
    dates [start_date + day] and every other column as it was. *)
Theorem plot_derivatives_charts (derivatives_df : DataFrame) (start_date : Z) :
  (LStr "day" ∉ (columns derivatives_df).*1 →
     plot_derivatives derivatives_df start_date = Raise (KeyError "day"))
  ∧ (∀ ds : list Z,
       NoDup (columns derivatives_df).*1 →
       column derivatives_df "day" = Ok (SInt <$> ds) →
       dates_fit start_date ds →
       ∃ table : DataFrame,
         plot_derivatives derivatives_df start_date
         = Ok ((λ d, mkLineChart table ("Demanda de " +:+ label_str d) "day:T" d
                       ("Qtde. de " +:+ label_str d))
               <$> filter (λ c, c ≠ LStr "day") (columns derivatives_df).*1)
         ∧ index table = index derivatives_df
         ∧ (columns table).*1 = (columns derivatives_df).*1
         ∧ getitem (columns table) (LStr "day")
           = Some ((λ t, SDate (start_date + t)) <$> ds)
         ∧ ∀ c, c ≠ LStr "day" →
             getitem (columns table) c = getitem (columns derivatives_df) c).
Proof.
  split.
  - intros Hout. unfold plot_derivatives, index_drop.
    by rewrite bool_decide_eq_false_2.
  - intros ds _ Hday Hfit.
    assert (Hin : LStr "day" ∈ (columns derivatives_df).*1).
    { unfold column in Hday.
      destruct (getitem (columns derivatives_df) (LStr "day")) eqn:E; [|done].
      by eapply getitem_Some_elem_of. }
    set (dates := (λ t, SDate (start_date + t)) <$> ds).
    exists (mkFrame (index_name derivatives_df) (index derivatives_df)
              (set_column (columns derivatives_df) (LStr "day") dates)).
    split_and!.
    + unfold plot_derivatives, index_drop. rewrite bool_decide_eq_true_2 by done.
      cbn [mbind result_bind]. apply mapR_Ok. intros d _.
      unfold create_derivative_chart. rewrite Hday. cbn [mbind result_bind].
      rewrite mapR_date_plus by done. done.
    + done.
    + cbn [columns]. by apply set_column_labels.
    + cbn [columns]. apply getitem_set_column.
    + intros c Hc. cbn [columns]. by apply getitem_set_column_ne.
Qed.

End derivative_charts.

Example plot_derivatives_sample :
  charts.lc_title <$> default []
    (match charts.plot_derivatives
             (viz.mkFrame None (viz.RangeIndex 2)
                [(viz.LStr "day", [viz.SInt 0; viz.SInt 1]);
                 (viz.LStr "leitos", [viz.SInt 3; viz.SInt 5]);
                 (viz.LStr "UTI", [viz.SInt 1; viz.SInt 2])]) 18341 with
     | Ok cs => Some cs
     | Raise _ => None
     end)
  = ["Demanda de leitos"; "Demanda de UTI"].
Proof. reflexivity. Qed.

(** ** simulator/pages/utils/viz.py: [make_exposed_infected_error_area_chart] *)

Section error_band.
Import viz charts.
Variable is_numeric_dtype : label → bool.
Variable np_round : float → float.

Lemma keeps_round_columns (h0 : heap) (l : nat) (names : list label) :
  keeps h0 (round_columns np_round l names) (λ l', h0 !! l' = None).
Proof.
  unfold round_columns. eapply keeps_bind; [apply keeps_deref|].
  intros df _. apply keeps_alloc.
Qed.

(** X12: the band chart leaves every frame that exists at the call as it
    is, the one it is given among them.  The table it draws is a new frame:
    the given one with the columns [variable_lower] and [variable_upper]
    rounded and nothing else changed, so a bound that is not positive
    reaches the chart as it is and is left to the filter of the chart. *)
Theorem make_exposed_infected_error_area_chart_table (h : heap) (data : nat)
    (variable color scale : string) :
  (∀ (l : nat) (f : DataFrame),
     h !! l = Some f →
     (make_exposed_infected_error_area_chart is_numeric_dtype np_round
        data variable color scale h).2 !! l = Some f)
  ∧ (∀ (chart : AreaChart) (d : DataFrame),
       (make_exposed_infected_error_area_chart is_numeric_dtype np_round
          data variable color scale h).1 = Ok chart →
       h !! data = Some d →
       h !! ac_source chart = None
       ∧ (make_exposed_infected_error_area_chart is_numeric_dtype np_round
            data variable color scale h).2 !! ac_source chart
         = Some (mkFrame (index_name d) (index d)
                   ((λ c : label * list scalar,
                       if bool_decide (c.1 ∈ [LStr (variable +:+ "_lower");
                                              LStr (variable +:+ "_upper")])
                       then (c.1, round_series np_round c.2) else c)
                    <$> columns d))
       ∧ ac_filter chart = "datum." +:+ variable +:+ "_lower > 0").
Proof.
  split.
  - assert (Hk : keeps h (make_exposed_infected_error_area_chart is_numeric_dtype np_round
                            data variable color scale) (λ _, True)).
    { unfold make_exposed_infected_error_area_chart.
      eapply keeps_bind; [apply keeps_treat|]. intros l _.
      eapply keeps_bind; [apply keeps_round_columns|]. intros l' _.
      by apply keeps_ret. }
    destruct (Hk h) as [Hsub _]; [done|].
    intros l f Hl. by eapply lookup_weaken.
  - intros chart d. unfold make_exposed_infected_error_area_chart, mbind, St_bind.
    destruct (keeps_treat is_numeric_dtype h data h) as [Hsub Hres]; [done|].
    destruct (_treat_negative_values_to_plot is_numeric_dtype data h) as [[l|e] h1] eqn:Ht;
      [|done].
    cbn [fst snd] in Hsub, Hres. rewrite (Hres l eq_refl).
    intros Hrun Hd.
    assert (Hd1 : h1 !! data = Some d) by (by eapply lookup_weaken).
    unfold round_columns, mbind, St_bind, deref, alloc in Hrun |- *.
    rewrite Hd1 in Hrun |- *. cbn in Hrun |- *. injection Hrun as <-. cbn [ac_source ac_filter].
    split_and!.
    + eapply lookup_weaken_None; [|exact Hsub]. apply not_elem_of_dom, is_fresh.
    + by rewrite lookup_insert_eq.
    + done.
Qed.

End error_band.

(** ** The further properties on the sample inputs *)

Lemma load_cases_cell_sums_witness :
  ∃ t : Wide Z,
    data.load_cases sample_state2initial sample_fiocruz "state" "fiocruz" []
    = (Ok t, [] ++ [data.source_url "fiocruz"])
    ∧ ∀ (d : Z) (k : string),
        d ∈ w_index t → (k, "newCases") ∈ w_columns t →
        cell_at t d (k, "newCases")
        = Some (sum_skipna (data.newCases <$> data.rows_of "state"
                  (data.source_frame sample_state2initial sample_fiocruz "state" "fiocruz") d k))
        ∧ cell_at t d (k, "totalCases")
          = Some (sum_skipna (data.totalCases <$> data.rows_of "state"
                    (data.source_frame sample_state2initial sample_fiocruz "state" "fiocruz") d k))
        ∧ (data.rows_of "state"
             (data.source_frame sample_state2initial sample_fiocruz "state" "fiocruz") d k = [] →
           cell_at t d (k, "newCases") = Some 0 ∧ cell_at t d (k, "totalCases") = Some 0).
Proof.
  apply (load_cases_cell_sums sample_state2initial sample_fiocruz "state" "fiocruz" []).
  - repeat constructor.
  - repeat constructor.
  - intros [? _]. done.
Defined.

Lemma load_cases_wcota_without_TOTAL_witness :
  (∃ t : Wide Z,
     data.load_cases ∅ sample_wcota "state" "wcota" [] = (Ok t, [] ++ [data.COVID_19_BY_CITY_URL])
     ∧ ∀ c, c ∈ w_columns t → c.1 ≠ "TOTAL")
  ∧ data.load_cases ∅ sample_wcota "city" "wcota" []
    = data.load_cases ∅
        (data.mkWorld (data.ms_csv sample_wcota)
           (filter (λ r, data.state r ≠ Some "TOTAL") (data.wcota_csv sample_wcota))
           (data.fiocruz_csv sample_wcota))
        "city" "wcota" [].
Proof.
  apply (load_cases_wcota_without_TOTAL ∅ sample_wcota "city" []).
  repeat constructor.
Defined.

Lemma load_cases_row_order_witness :
  data.load_cases ∅ sample_wcota "state" "wcota" []
  = data.load_cases ∅ sample_wcota_reordered "state" "wcota" [].
Proof.
  apply (load_cases_row_order ∅ sample_wcota sample_wcota_reordered "state" "wcota" []).
  - repeat constructor.
  - repeat constructor.
  - intros [? _]. done.
  - reflexivity.
  - cbn [data.wcota_csv sample_wcota sample_wcota_reordered].
    apply (Permutation_rev [_; _; _]).
Defined.

Lemma load_population_total_witness :
  ∃ s, data.load_population sample_ibge "state" = Ok s
    ∧ foldr Z.add 0 s.*2 = foldr Z.add 0 (data.estimated_population <$> sample_ibge)
    ∧ (length s ≤ length sample_ibge)%nat.
Proof.
  apply (load_population_total sample_ibge "state"). by left.
Defined.

Lemma compute_mean_and_boundaries_groups_witness :
  ∃ out : viz.Frame viz.label float,
    viz.compute_mean_and_boundaries sample_mean sample_std sample_long "Exposto" = Ok out
    ∧ viz.index out = viz.SInt <$> sort_uniq [0; 1; 0; 1; 0; 1]
    ∧ ascending (sort_uniq [0; 1; 0; 1; 0; 1])
    ∧ (∀ t, t ∈ sort_uniq [0; 1; 0; 1; 0; 1] ↔ t ∈ [0; 1; 0; 1; 0; 1])
    ∧ viz.column out (("Exposto" +:+ "_") +:+ "mean")
      = Ok ((λ t, sample_mean (values_at [0; 1; 0; 1; 0; 1] [0; 4; 2; 5; 4; 9]%float t))
            <$> sort_uniq [0; 1; 0; 1; 0; 1])
    ∧ viz.column out (("Exposto" +:+ "_") +:+ "std")
      = Ok ((λ t, sample_std (values_at [0; 1; 0; 1; 0; 1] [0; 4; 2; 5; 4; 9]%float t))
            <$> sort_uniq [0; 1; 0; 1; 0; 1]).
Proof.
  apply (compute_mean_and_boundaries_groups sample_mean sample_std sample_long "Exposto"
           [0; 1; 0; 1; 0; 1] [0; 4; 2; 5; 4; 9]%float).
  - by apply (long_labels_NoDup "Exposto").
  - done.
  - reflexivity.
  - reflexivity.
Defined.

Lemma prep_death_data_to_plot_table_witness :
  ∃ mean std : list float,
    length mean = length (sort_uniq [0; 1])
    ∧ length std = length (sort_uniq [0; 1])
    ∧ viz.prep_death_data_to_plot sample_mean sample_std sample_E [0; 1] 18341
      = Ok (viz.mkFrame None (viz.RangeIndex (length (sort_uniq [0; 1])))
              [(viz.LStr "Dias", viz.SInt <$> sort_uniq [0; 1]);
               (viz.LStr "Óbito_mean", viz.SFloat <$> mean);
               (viz.LStr "Óbito_std", viz.SFloat <$> std);
               (viz.LStr "Óbito_upper", viz.SFloat <$> zip_with PrimFloat.add mean std);
               (viz.LStr "Óbito_lower", viz.SFloat <$> zip_with PrimFloat.sub mean std);
               (viz.LStr "Datas", (λ t, viz.SDate (18341 + t)) <$> sort_uniq [0; 1])]).
Proof.
  apply (prep_death_data_to_plot_table sample_mean sample_std sample_E [0; 1] 18341).
  - reflexivity.
  - cbn. lia.
  - split; [lia|]. repeat constructor; lia.
Defined.

Lemma prep_tidy_data_to_plot_shapes_witness :
  ∃ data, viz.prep_tidy_data_to_plot sample_mean sample_std sample_E sample_I [0; 1] 18341
          = Ok data.
Proof.
  destruct (prep_tidy_data_to_plot_shapes sample_mean sample_std sample_E sample_I [0; 1] 18341)
    as [_ Hfit].
  apply Hfit.
  - split; [lia|]. repeat constructor; lia.
  - split; reflexivity.
Defined.


Section derivative_charts_sample.
Import viz.

Lemma plot_derivatives_charts_witness :
  ∃ table : viz.DataFrame,
    charts.plot_derivatives sample_derivatives 18341
    = Ok ((λ d, charts.mkLineChart table ("Demanda de " +:+ viz.label_str d) "day:T" d
                  ("Qtde. de " +:+ viz.label_str d))
          <$> filter (λ c, c ≠ viz.LStr "day") (viz.columns sample_derivatives).*1)
    ∧ viz.index table = viz.index sample_derivatives
    ∧ (viz.columns table).*1 = (viz.columns sample_derivatives).*1
    ∧ viz.getitem (viz.columns table) (viz.LStr "day")
      = Some ((λ t, viz.SDate (18341 + t)) <$> [0; 1])
    ∧ ∀ c, c ≠ viz.LStr "day" →
        viz.getitem (viz.columns table) c = viz.getitem (viz.columns sample_derivatives) c.
Proof.
  destruct (plot_derivatives_charts sample_derivatives 18341) as [_ Hcharts].
  apply (Hcharts [0; 1]).
  - cbn. repeat apply NoDup_cons_2; try apply NoDup_nil_2;
      rewrite ?elem_of_cons, ?elem_of_nil; naive_solver.
  - reflexivity.
  - split; [lia|]. repeat constructor; lia.
Defined.

End derivative_charts_sample.
